(** * Market-Breadth-Dashboard: the statistics pipeline of [dashboard.py]

    A shallow embedding of the script's data cleaning, metrics engine
    (trend distance, volatility, beta), breadth count and screener.

    Numbers.  The script computes on IEEE binary64 values.  They are modelled
    as [float64]: an exact canonical rational ([Qc]) or one of the special
    values NaN, +inf, -inf, with the IEEE rules for the special values
    (inf - inf, 0 * inf, 0 / 0 and inf / inf are NaN, x / 0 is an infinity for
    x <> 0, every comparison with NaN is false).  Rounding of finite values
    and the sign of zero are abstracted away.  The square root of a finite
    non-negative value is a parameter of the development ([sqrt_q]): no
    theorem depends on any property of it.

    Tables.  A pandas DataFrame is a date index together with an ordered list
    of labelled columns; a missing entry is NaN. *)

From Stdlib Require Import String Bool Arith Lia Lqa ZArith.
From Stdlib Require Import QArith Qcanon Qround List Permutation Sorted.
Import ListNotations.

Local Open Scope nat_scope.

(* ================================================================== *)
(** ** Values: binary64 as exact rationals with IEEE special values     *)
(* ================================================================== *)

Module Float.

Inductive float64 : Type :=
| NaN
| PInf
| NInf
| Fin (q : Qc).

Definition of_Z (z : Z) : float64 := Fin (Q2Qc (inject_Z z)).
Definition of_nat (n : nat) : float64 := of_Z (Z.of_nat n).

Definition zero : float64 := of_Z 0.
Definition one : float64 := of_Z 1.

Definition isnan (x : float64) : bool :=
  match x with NaN => true | _ => false end.

Definition notna (x : float64) : bool := negb (isnan x).

Definition isfinite (x : float64) : bool :=
  match x with Fin _ => true | _ => false end.

Definition fneg (x : float64) : float64 :=
  match x with
  | NaN => NaN
  | PInf => NInf
  | NInf => PInf
  | Fin q => Fin (- q)%Qc
  end.

Definition fadd (x y : float64) : float64 :=
  match x, y with
  | NaN, _ | _, NaN => NaN
  | PInf, NInf | NInf, PInf => NaN
  | PInf, _ | _, PInf => PInf
  | NInf, _ | _, NInf => NInf
  | Fin a, Fin b => Fin (a + b)%Qc
  end.

Definition fsub (x y : float64) : float64 := fadd x (fneg y).

(** An infinity scaled by a finite value: the sign of the finite factor
    decides, and a zero factor gives NaN. *)
Definition inf_times (pos : bool) (q : Qc) : float64 :=
  match (q ?= 0)%Qc with
  | Eq => NaN
  | Gt => if pos then PInf else NInf
  | Lt => if pos then NInf else PInf
  end.

Definition fmul (x y : float64) : float64 :=
  match x, y with
  | NaN, _ | _, NaN => NaN
  | PInf, PInf | NInf, NInf => PInf
  | PInf, NInf | NInf, PInf => NInf
  | PInf, Fin q | Fin q, PInf => inf_times true q
  | NInf, Fin q | Fin q, NInf => inf_times false q
  | Fin a, Fin b => Fin (a * b)%Qc
  end.

Definition fdiv (x y : float64) : float64 :=
  match x, y with
  | NaN, _ | _, NaN => NaN
  | PInf, PInf | PInf, NInf | NInf, PInf | NInf, NInf => NaN
  | PInf, Fin q =>
      match (q ?= 0)%Qc with Lt => NInf | _ => PInf end
  | NInf, Fin q =>
      match (q ?= 0)%Qc with Lt => PInf | _ => NInf end
  | Fin _, PInf | Fin _, NInf => zero
  | Fin a, Fin b =>
      match (b ?= 0)%Qc with
      | Eq =>
          match (a ?= 0)%Qc with
          | Eq => NaN
          | Gt => PInf
          | Lt => NInf
          end
      | _ => Fin (a / b)%Qc
      end
  end.

(** [x < y] on floats: false as soon as one side is NaN. *)
Definition flt (x y : float64) : bool :=
  match x, y with
  | NaN, _ | _, NaN => false
  | _, NInf => false
  | PInf, _ => false
  | NInf, _ => true
  | _, PInf => true
  | Fin a, Fin b => match (a ?= b)%Qc with Lt => true | _ => false end
  end.

Definition fgt (x y : float64) : bool := flt y x.

(** [x <= y] on floats: false as soon as one side is NaN. *)
Definition fle (x y : float64) : bool :=
  match x, y with
  | NaN, _ | _, NaN => false
  | NInf, _ => true
  | _, PInf => true
  | _, NInf => false
  | PInf, _ => false
  | Fin a, Fin b => match (a ?= b)%Qc with Gt => false | _ => true end
  end.

Definition fabs (x : float64) : float64 :=
  match x with
  | NaN => NaN
  | PInf | NInf => PInf
  | Fin q => match (q ?= 0)%Qc with Lt => Fin (- q)%Qc | _ => Fin q end
  end.

(** Sum of a sequence, starting from 0. *)
Definition fsum (l : list float64) : float64 := fold_right fadd zero l.

Section Sqrt.

(** Square root of a finite non-negative value, as the runtime computes
    it. *)
Variable sqrt_q : Qc -> Qc.

Definition fsqrt (x : float64) : float64 :=
  match x with
  | NaN => NaN
  | PInf => PInf
  | NInf => NaN
  | Fin q => match (q ?= 0)%Qc with Lt => NaN | _ => Fin (sqrt_q q) end
  end.

End Sqrt.

End Float.

Export Float.

Declare Scope float_scope.
Delimit Scope float_scope with float.
Bind Scope float_scope with float64.
Infix "+" := fadd : float_scope.
Infix "-" := fsub : float_scope.
Infix "*" := fmul : float_scope.
Infix "/" := fdiv : float_scope.

(* ================================================================== *)
(** ** Exceptions                                                       *)
(* ================================================================== *)

Inductive exn : Type :=
| KeyError (key : string)
| IndexError.

Definition result (A : Type) : Type := (exn + A)%type.

Definition ret {A : Type} (a : A) : result A := inr a.
Definition raise {A : Type} (e : exn) : result A := inl e.

Definition bind {A B : Type} (m : result A) (k : A -> result B) : result B :=
  match m with
  | inl e => inl e
  | inr a => k a
  end.

Notation "x <- m ;; k" := (bind m (fun x => k))
  (at level 61, m at next level, right associativity).

(* ================================================================== *)
(** ** Tables                                                           *)
(* ================================================================== *)

(** A Series without its index: the values of one column.  In a frame that
    pandas builds every column has one value per entry of the index; no
    definition below relies on it. *)
Definition Series : Type := list float64.

Definition Column : Type := (string * Series)%type.

Record DataFrame : Type := mkFrame {
  index : list Z;
  columns : list Column
}.

Definition label (c : Column) : string := fst c.
Definition values (c : Column) : Series := snd c.

(** What the download hands over for the 'Close' field: per symbol and per
    trading day a finite close or nothing. *)
Record PriceTable : Type := mkPrices {
  days : list Z;
  closes : list (string * list (option Qc))
}.

Definition to_float (c : option Qc) : float64 :=
  match c with
  | Some q => Fin q
  | None => NaN
  end.

(** [yf.download(...)['Close']] *)
Definition close_frame (t : PriceTable) : DataFrame :=
  {| index := days t;
     columns := map (fun c => (fst c, map to_float (snd c))) (closes t) |}.

(** [df.dropna(axis=1)]: keep the columns without any NaN. *)
Definition complete (c : Column) : bool := forallb notna (values c).

Definition dropna (df : DataFrame) : DataFrame :=
  {| index := index df;
     columns := filter complete (columns df) |}.

Definition has_label (key : string) (c : Column) : bool :=
  String.eqb (label c) key.

(** [df[key]]: the column labelled [key], or KeyError. *)
Definition getitem (df : DataFrame) (key : string) : result Series :=
  match find (has_label key) (columns df) with
  | Some c => ret (values c)
  | None => raise (KeyError key)
  end.

(** [df.drop(key, axis=1)]: the frame without the columns labelled [key],
    or KeyError when there is none. *)
Definition drop (df : DataFrame) (key : string) : result DataFrame :=
  if existsb (has_label key) (columns df)
  then ret {| index := index df;
              columns := filter (fun c => negb (has_label key c)) (columns df) |}
  else raise (KeyError key).

(** [df.iloc[-1]]: the last row, one value per column, or IndexError on a
    frame without rows. *)
Definition iloc_last (df : DataFrame) : result (list (string * float64)) :=
  match index df with
  | [] => raise IndexError
  | _ :: _ => ret (map (fun c => (label c, last (values c) NaN)) (columns df))
  end.

(* ================================================================== *)
(** ** Statistics on one Series                                         *)
(* ================================================================== *)

(** [s.shift(1)]: every value moves one day later, the first day gets NaN. *)
Definition shift1 (s : Series) : Series :=
  match s with
  | [] => []
  | _ :: _ => NaN :: removelast s
  end.

(** [s.pct_change()], that is [s / s.shift(1) - 1].  (The forward fill that
    older pandas versions apply first is the identity on a column without
    NaN, which is all the script has after the cleaning.) *)
Definition pct_change (s : Series) : Series :=
  map (fun p => (fst p / snd p - one)%float) (combine s (shift1 s)).

(** The mean of the observations of one window of [rolling(window).mean()]:
    NaN unless the window holds at least [minp] observations. *)
Definition window_mean (minp : nat) (win : Series) : float64 :=
  let obs := filter notna win in
  let nobs := length obs in
  if (nobs <? minp) || (nobs =? 0) then NaN
  else (fsum obs / of_nat nobs)%float.

(** [s.rolling(window=w).mean()]: at day [i] the window is the (at most) [w]
    values ending at day [i]; [min_periods] defaults to [w]. *)
Definition rolling_mean (w : nat) (s : Series) : Series :=
  map (fun i => window_mean w (skipn (S i - w) (firstn (S i) s)))
      (seq 0 (length s)).

(** [s.var()] (pandas [nanvar], [ddof = 1]): NaN is skipped. *)
Definition var (s : Series) : float64 :=
  let vals := filter notna s in
  let count := length vals in
  if count <=? 1 then NaN
  else
    let avg := (fsum vals / of_nat count)%float in
    let sqr := map (fun x => ((avg - x) * (avg - x))%float) vals in
    (fsum sqr / of_nat (count - 1))%float.

(** [a.cov(b)] (pandas [nancov] over numpy's [cov], [ddof = 1]): the days on
    which either value is NaN are skipped. *)
Definition cov (a b : Series) : float64 :=
  let valid := filter (fun p => notna (fst p) && notna (snd p)) (combine a b) in
  let n := length valid in
  if n <? 1 then NaN
  else
    let avg_a := (fsum (map fst valid) / of_nat n)%float in
    let avg_b := (fsum (map snd valid) / of_nat n)%float in
    let dot :=
      fsum (map (fun p => ((fst p - avg_a) * (snd p - avg_b))%float) valid) in
    (dot * (one / of_nat (n - 1)))%float.

(* ================================================================== *)
(** ** The metrics table and what is read off it                        *)
(* ================================================================== *)

Record MetricsRow : Type := mkRow {
  Ticker : string;
  Distance_SMA : float64;
  Volatility : float64;
  Beta : float64
}.

(** [pd.DataFrame({'Ticker': ..., 'Distance_SMA': ..., 'Volatility': ...,
    'Beta': ...})]: row [i] takes the [i]-th entry of each list (the four
    lists of the script have one entry per stock column). *)
Fixpoint frame_of (tk : list string) (d v b : list float64) : list MetricsRow :=
  match tk, d, v, b with
  | t :: tk', x :: d', y :: v', z :: b' =>
      {| Ticker := t; Distance_SMA := x; Volatility := y; Beta := z |}
        :: frame_of tk' d' v' b'
  | _, _, _, _ => []
  end.

(** [metrics['Distance_SMA'] > 0] *)
Definition bullish (r : MetricsRow) : bool := fgt (Distance_SMA r) zero.

(** The label test of the risk map:
    [abs(Distance_SMA) > 15 or Beta > 1.5]. *)
Definition outlier (r : MetricsRow) : bool :=
  fgt (fabs (Distance_SMA r)) (of_Z 15)
  || fgt (Beta r) (Fin (Q2Qc (3 # 2))).

(** The mask of the screener:
    [(Distance_SMA > floor) & (Volatility < ceiling)]. *)
Definition candidate (floor ceiling : float64) (r : MetricsRow) : bool :=
  fgt (Distance_SMA r) floor && flt (Volatility r) ceiling.

(** [sort_values(by='Distance_SMA', ascending=False)]: rows by decreasing
    key, the rows whose key is NaN last.  The order among equal keys is left
    open by pandas' default sort; here a row stays before the rows with an
    equal key that followed it. *)
Fixpoint insert_desc (r : MetricsRow) (l : list MetricsRow) : list MetricsRow :=
  match l with
  | [] => [r]
  | h :: t =>
      if flt (Distance_SMA r) (Distance_SMA h)
      then h :: insert_desc r t
      else r :: h :: t
  end.

Definition sort_desc (l : list MetricsRow) : list MetricsRow :=
  fold_right insert_desc [] l.

Definition sort_values_desc (l : list MetricsRow) : list MetricsRow :=
  sort_desc (filter (fun r => notna (Distance_SMA r)) l)
  ++ filter (fun r => isnan (Distance_SMA r)) l.

(** [metrics[mask].sort_values(...).head(5)] for given thresholds. *)
Definition screener_with (floor ceiling : float64) (m : list MetricsRow)
  : list MetricsRow :=
  firstn 5 (sort_values_desc (filter (candidate floor ceiling) m)).

(** The script's thresholds: [Distance_SMA > 5] and [Volatility < 25]. *)
Definition screener (m : list MetricsRow) : list MetricsRow :=
  screener_with (of_Z 5) (of_Z 25) m.

Record Dashboard : Type := mkDashboard {
  metrics : list MetricsRow;
  bullish_count : nat;
  bearish_count : nat;
  labelled : list string;
  printed : list MetricsRow
}.

(* ================================================================== *)
(** ** The script                                                       *)
(* ================================================================== *)

Section Script.

Variable sqrt_q : Qc -> Qc.

(** [s.std()] *)
Definition std (s : Series) : float64 := fsqrt sqrt_q (var s).

(** [np.sqrt(252)] *)
Definition sqrt_252 : float64 := fsqrt sqrt_q (of_Z 252).

(** Steps 2 and 3 of the script: cleaning, split, the three statistics and
    the metrics table. *)
Definition compute_metrics (t : PriceTable) : result (list MetricsRow) :=
  let data := close_frame t in
  let data := dropna data in
  spy_data <- getitem data "SPY"%string ;;
  stock_data <- drop data "SPY"%string ;;
  let sma_50 :=
    {| index := index stock_data;
       columns := map (fun c => (label c, rolling_mean 50 (values c)))
                      (columns stock_data) |} in
  current_price <- iloc_last stock_data ;;
  current_sma <- iloc_last sma_50 ;;
  let dist_sma :=
    map (fun ps => (((snd (fst ps) - snd (snd ps)) / snd (snd ps))
                    * of_Z 100)%float)
        (combine current_price current_sma) in
  let daily_returns :=
    map (fun c => (label c, pct_change (values c))) (columns stock_data) in
  let volatility :=
    map (fun c => (std (values c) * sqrt_252 * of_Z 100)%float)
        daily_returns in
  let spy_returns := pct_change spy_data in
  let betas :=
    map (fun c =>
           let cov := cov (values c) spy_returns in
           let var := var spy_returns in
           (cov / var)%float)
        daily_returns in
  ret (frame_of (map label (columns stock_data)) dist_sma volatility betas).

(** The whole run: the metrics table, the breadth counts of panel 1, the
    labels of panel 3 and the printed candidates. *)
Definition dashboard (t : PriceTable) : result Dashboard :=
  metrics <- compute_metrics t ;;
  let bullish_count := length (filter bullish metrics) in
  let total_count := length metrics in
  let bearish_count := total_count - bullish_count in
  ret {| metrics := metrics;
         bullish_count := bullish_count;
         bearish_count := bearish_count;
         labelled := map Ticker (filter outlier metrics);
         printed := screener metrics |}.

End Script.

(* ================================================================== *)
(** ** The reading of the script used in the statements                 *)
(* ================================================================== *)

(** The cleaned table of a run, its benchmark and its stock columns. *)
Definition cleaned (t : PriceTable) : DataFrame := dropna (close_frame t).

Definition benchmark (t : PriceTable) : result Series :=
  getitem (cleaned t) "SPY"%string.

Definition stock_columns (t : PriceTable) : list Column :=
  filter (fun c => negb (has_label "SPY"%string c)) (columns (cleaned t)).

(** The three statistics of one stock column, as the script computes them
    column by column. *)
Definition trend_of (s : Series) : float64 :=
  let current_price := last s NaN in
  let current_sma := last (rolling_mean 50 s) NaN in
  (((current_price - current_sma) / current_sma) * of_Z 100)%float.

Section Rows.

Variable sqrt_q : Qc -> Qc.

Definition volatility_of (s : Series) : float64 :=
  (std sqrt_q (pct_change s) * sqrt_252 sqrt_q * of_Z 100)%float.

Definition beta_of (spy_data s : Series) : float64 :=
  (cov (pct_change s) (pct_change spy_data) / var (pct_change spy_data))%float.

Definition row_of (spy_data : Series) (c : Column) : MetricsRow :=
  {| Ticker := label c;
     Distance_SMA := trend_of (values c);
     Volatility := volatility_of (values c);
     Beta := beta_of spy_data (values c) |}.

End Rows.

(** One list is the other with some elements left out, order kept. *)
Inductive Subseq {A : Type} : list A -> list A -> Prop :=
| Subseq_nil : Subseq [] []
| Subseq_keep x l1 l2 : Subseq l1 l2 -> Subseq (x :: l1) (x :: l2)
| Subseq_skip x l1 l2 : Subseq l1 l2 -> Subseq l1 (x :: l2).

(** Exact sums and means of finite values, and the last [n] elements. *)
Definition sum_q (l : list Qc) : Qc := fold_right Qcplus 0%Qc l.

Definition nat_q (n : nat) : Qc := Q2Qc (inject_Z (Z.of_nat n)).

Definition mean_q (l : list Qc) : Qc := (sum_q l / nat_q (length l))%Qc.

Definition lastn {A : Type} (n : nat) (l : list A) : list A :=
  skipn (length l - n) l.

(** Two rows in decreasing order of trend distance. *)
Definition desc (r1 r2 : MetricsRow) : Prop :=
  fle (Distance_SMA r2) (Distance_SMA r1) = true.

Definition keyed (r : MetricsRow) : Prop := Distance_SMA r <> NaN.

(** The trend distance in the words of its definition: the last close, the
    mean of the 50 most recent closes (the last day included), and their
    relative distance in percent. *)
Definition last_close (prices : list Qc) : Qc := last prices 0%Qc.

Definition last_sma (prices : list Qc) : Qc := mean_q (lastn 50 prices).

Definition trend_distance_pct (prices : list Qc) : float64 :=
  (((Fin (last_close prices) - Fin (last_sma prices))
    / Fin (last_sma prices)) * of_Z 100)%float.

(** The returns series in the words of its definition: one value for every
    day after the first, the close over the previous close, minus 1. *)
Fixpoint returns_series (prices : Series) : Series :=
  match prices with
  | [] => []
  | prev :: rest =>
      match rest with
      | [] => []
      | p :: _ => (p / prev - one)%float :: returns_series rest
      end
  end.

(** The sample variance and standard deviation of a sequence: the squared
    deviations from the mean, summed and divided by the length minus 1. *)
Definition sample_var (xs : Series) : float64 :=
  let mean := (fsum xs / of_nat (length xs))%float in
  (fsum (map (fun x => ((x - mean) * (x - mean))%float) xs)
   / of_nat (length xs - 1))%float.

Definition sample_std (sqrt_q : Qc -> Qc) (xs : Series) : float64 :=
  fsqrt sqrt_q (sample_var xs).

(* ================================================================== *)
(** ** Example inputs                                                   *)
(* ================================================================== *)

(** A square root to six decimals, to run the script on examples. *)
Definition sqrt_approx (q : Qc) : Qc :=
  (Q2Qc (inject_Z (Z.sqrt (Qfloor (q * Q2Qc (inject_Z 1000000000000))%Qc)))
   / Q2Qc (inject_Z 1000000))%Qc.

Definition price (z : Z) : option Qc := Some (Q2Qc (inject_Z z)).

(** [n] days at [lo], then one day at [hi]. *)
Definition step (lo hi : Z) (n : nat) : list (option Qc) :=
  repeat (price lo) n ++ [price hi].

Definition flat (p : Z) (n : nat) : list (option Qc) := repeat (price p) n.

(** [n] days alternating between 50 and 100. *)
Definition zigzag (n : nat) : list (option Qc) :=
  map (fun i => price (if Nat.even i then 50 else 100)) (seq 0 n).

Definition trading_days (n : nat) : list Z := map Z.of_nat (seq 0 n).

(** 60 days, A at 100 and at 110 on the last day, the benchmark flat
    at 50. *)
Definition table_flat_benchmark : PriceTable :=
  {| days := trading_days 60;
     closes := [("A"%string, step 100 110 59); ("SPY"%string, flat 50 60)] |}.

(** 60 days, A as before, the benchmark moving. *)
Definition table_rising : PriceTable :=
  {| days := trading_days 60;
     closes := [("A"%string, step 100 110 59); ("SPY"%string, zigzag 60)] |}.

(** 30 days only. *)
Definition table_short : PriceTable :=
  {| days := trading_days 30;
     closes := [("A"%string, step 100 110 29); ("SPY"%string, zigzag 30)] |}.

(** 50 days, A at 0 throughout. *)
Definition table_zero : PriceTable :=
  {| days := trading_days 50;
     closes := [("A"%string, flat 0 50); ("SPY"%string, zigzag 50)] |}.

(** 4 days, A closing at 1, 2, 0, 0. *)
Definition table_gap : PriceTable :=
  {| days := trading_days 4;
     closes := [("A"%string, [price 1; price 2; price 0; price 0]);
                ("SPY"%string, [price 5; price 6; price 5; price 7])] |}.

(** 4 days, B equal to the benchmark on every day. *)
Definition table_twin : PriceTable :=
  {| days := trading_days 4;
     closes := [("B"%string, [price 100; price 102; price 101; price 105]);
                ("SPY"%string, [price 100; price 102; price 101; price 105])] |}.

(** 4 days, the benchmark without a close on the second day. *)
Definition table_no_benchmark : PriceTable :=
  {| days := trading_days 4;
     closes := [("A"%string, [price 1; price 2; price 3; price 4]);
                ("SPY"%string, [price 5; None; price 5; price 7])] |}.

(** A metrics table of seven rows: six pass the screener's two tests, G is
    too volatile, and C and E have the same trend distance. *)
Definition sample_row (tk : string) (dist vol : Z) : MetricsRow :=
  {| Ticker := tk; Distance_SMA := of_Z dist; Volatility := of_Z vol;
     Beta := one |}.

Definition sample_metrics : list MetricsRow :=
  [ sample_row "A" 7 10; sample_row "B" 12 20; sample_row "C" 9 24;
    sample_row "D" 6 5; sample_row "E" 9 11; sample_row "F" 30 1;
    sample_row "G" 40 25;
    {| Ticker := "H"; Distance_SMA := NaN; Volatility := of_Z 3;
       Beta := NaN |} ]%string.

(** The metrics table of a run, empty when the run raised. *)
Definition metrics_or_empty (r : result (list MetricsRow)) : list MetricsRow :=
  match r with
  | inr m => m
  | inl _ => []
  end.

(** The dashboard of a run, empty when the run raised. *)
Definition dashboard_or_empty (r : result Dashboard) : Dashboard :=
  match r with
  | inr d => d
  | inl _ =>
      {| metrics := []; bullish_count := 0; bearish_count := 0;
         labelled := []; printed := [] |}
  end.

(* ================================================================== *)
(** ** Four requirements as the specification words them                *)
(* ================================================================== *)

(** With a benchmark of zero variance, no beta of the metrics table is NaN
    or infinite (a run that raises satisfies this). *)
Definition beta_never_leaks (sqrt_q : Qc -> Qc) (t : PriceTable) : Prop :=
  forall spy_data d,
    benchmark t = ret spy_data ->
    var (pct_change spy_data) = zero ->
    dashboard sqrt_q t = ret d ->
    Forall (fun r => isfinite (Beta r) = true) (metrics d).

(** An asset with fewer than 50 observations has no row in the metrics
    table that carries NaN as its trend distance. *)
Definition short_history_excluded (sqrt_q : Qc -> Qc) (t : PriceTable)
  : Prop :=
  forall d c r,
    dashboard sqrt_q t = ret d ->
    In c (stock_columns t) -> length (values c) < 50 ->
    In r (metrics d) -> Ticker r = label c ->
    Distance_SMA r <> NaN.

(** With at least two closes, the volatility is the sample standard
    deviation of the whole returns series, times sqrt(252), times 100. *)
Definition volatility_over_all_returns (sqrt_q : Qc -> Qc) (t : PriceTable)
  : Prop :=
  forall m,
    compute_metrics sqrt_q t = ret m ->
    Forall2 (fun c r =>
               2 <= length (values c) ->
               Volatility r
               = (sample_std sqrt_q (returns_series (values c))
                  * sqrt_252 sqrt_q * of_Z 100)%float)
            (stock_columns t) m.

(** With at least 50 closes, the trend distance is positive exactly when
    the last close is above the 50-day mean, negative exactly when it is
    below, and 0 when they are equal. *)
Definition trend_sign_exact (sqrt_q : Qc -> Qc) (t : PriceTable) : Prop :=
  forall d,
    dashboard sqrt_q t = ret d ->
    Forall2 (fun c r =>
               forall prices,
                 values c = map Fin prices -> 50 <= length prices ->
                 (fgt (Distance_SMA r) zero = true <->
                  (last_sma prices < last_close prices)%Qc)
                 /\ (flt (Distance_SMA r) zero = true <->
                     (last_close prices < last_sma prices)%Qc)
                 /\ (last_close prices = last_sma prices ->
                     Distance_SMA r = zero))
            (stock_columns t) (metrics d).


(* ================================================================== *)
(** ** The risk map and further readings of the script                  *)
(* ================================================================== *)

Definition green : string := "#00ff00".
Definition red : string := "#ff0000".

(** [marker_colors = ['#00ff00' if x > 0 else '#ff0000'
                      for x in metrics['Distance_SMA']]] *)
Definition marker_colors (m : list MetricsRow) : list string :=
  map (fun x => if fgt x zero then green else red) (map Distance_SMA m).

(** The day-over-day returns of finite non-zero closes, as exact numbers. *)
Fixpoint returns_q (prices : list Qc) : list Qc :=
  match prices with
  | [] => []
  | prev :: rest =>
      match rest with
      | [] => []
      | p :: _ => (p / prev - 1)%Qc :: returns_q rest
      end
  end.

(** Line 46 of the script on one asset:
    [((current_price - current_sma) / current_sma) * 100]. *)
Definition distance_pct (current_price current_sma : float64) : float64 :=
  (((current_price - current_sma) / current_sma) * of_Z 100)%float.

(** The number of closes a downloaded column holds (its entries that are
    not missing). *)
Definition observations (raw : list (option Qc)) : nat :=
  length (filter (fun o => match o with Some _ => true | None => false end)
                 raw).

(** 60 days; B has a close on the first 30 days only. *)
Definition table_partial : PriceTable :=
  {| days := trading_days 60;
     closes := [("A"%string, step 100 110 59);
                ("B"%string, flat 20 30 ++ repeat None 30);
                ("SPY"%string, zigzag 60)] |}.

(** 60 days, A at 100 throughout, the benchmark moving. *)
Definition table_flat_asset : PriceTable :=
  {| days := trading_days 60;
     closes := [("A"%string, flat 100 60); ("SPY"%string, zigzag 60)] |}.

(** 2 days only. *)
Definition table_two_days : PriceTable :=
  {| days := trading_days 2;
     closes := [("A"%string, [price 1; price 2]);
                ("SPY"%string, [price 5; price 6])] |}.

(** No trading day at all: every column is empty. *)
Definition table_no_days : PriceTable :=
  {| days := [];
     closes := [("A"%string, []); ("SPY"%string, [])] |}.

(* ================================================================== *)
(** ** The cleaner                                                      *)
(* ================================================================== *)

Lemma notna_true_iff (x : float64) : notna x = true <-> x <> NaN.
Proof.
  destruct x; simpl; split; intro H; try reflexivity; try discriminate;
    try congruence.
Qed.

Lemma complete_iff (c : Column) :
  complete c = true <-> ~ In NaN (values c).
Proof.
  unfold complete. rewrite forallb_forall. split.
  - intros H Hin. apply H in Hin. discriminate Hin.
  - intros H x Hx. apply notna_true_iff. intros ->. exact (H Hx).
Qed.

Lemma filter_idem {A : Type} (f : A -> bool) (l : list A) :
  filter f (filter f l) = filter f l.
Proof.
  induction l as [| a l IH]; simpl; [reflexivity |].
  destruct (f a) eqn:E; simpl; [rewrite E, IH; reflexivity | exact IH].
Qed.

Lemma filter_Subseq {A : Type} (f : A -> bool) (l : list A) :
  Subseq (filter f l) l.
Proof.
  induction l as [| a l IH]; simpl.
  - constructor.
  - destruct (f a); constructor; exact IH.
Qed.

Lemma Subseq_In {A : Type} (l1 l2 : list A) :
  Subseq l1 l2 -> forall x, In x l1 -> In x l2.
Proof.
  induction 1 as [| x l1 l2 _ IH | x l1 l2 _ IH]; intros y Hy.
  - exact Hy.
  - destruct Hy as [-> | Hy]; [left; reflexivity | right; exact (IH y Hy)].
  - right. exact (IH y Hy).
Qed.

(** C7. The cleaner keeps exactly the columns of the input that hold no
    missing value (a column with a NaN anywhere is dropped, every other
    column is kept), so no column of the cleaned table has a missing entry,
    and cleaning a cleaned table changes nothing. *)
Theorem dropna_exact_and_idempotent (df : DataFrame) :
  (forall c, In c (columns (dropna df)) <->
             In c (columns df) /\ ~ In NaN (values c))
  /\ Forall (fun c => Forall (fun x => x <> NaN) (values c))
            (columns (dropna df))
  /\ dropna (dropna df) = dropna df.
Proof.
  split; [| split].
  - intro c. unfold dropna; simpl. rewrite filter_In, complete_iff. tauto.
  - apply Forall_forall. intros c Hc. unfold dropna in Hc; simpl in Hc.
    apply filter_In in Hc. destruct Hc as [_ Hc].
    apply complete_iff in Hc. apply Forall_forall. intros x Hx ->.
    exact (Hc Hx).
  - unfold dropna; simpl. rewrite filter_idem. reflexivity.
Qed.

(** C10. The cleaner only removes whole columns: the date index, and with it
    the row count and the order of the days, is the input's; the columns of
    the cleaned table are columns of the input, label and values untouched,
    in the input's relative order; and when every input column has one value
    per day, so has every surviving column. *)
Theorem dropna_frame (df : DataFrame) :
  index (dropna df) = index df
  /\ length (index (dropna df)) = length (index df)
  /\ Subseq (columns (dropna df)) (columns df)
  /\ Forall (fun c => In c (columns df)) (columns (dropna df))
  /\ (Forall (fun c => length (values c) = length (index df)) (columns df) ->
      Forall (fun c => length (values c) = length (index (dropna df)))
             (columns (dropna df))).
Proof.
  assert (Hs : Subseq (columns (dropna df)) (columns df))
    by (unfold dropna; simpl; apply filter_Subseq).
  repeat split; try reflexivity; try exact Hs.
  - apply Forall_forall. intros c Hc. exact (Subseq_In _ _ Hs c Hc).
  - intro Hwf. apply Forall_forall. intros c Hc.
    rewrite Forall_forall in Hwf. apply Hwf.
    exact (Subseq_In _ _ Hs c Hc).
Qed.

(* ================================================================== *)
(** ** The run, read column by column                                   *)
(* ================================================================== *)

Lemma getitem_absent (df : DataFrame) (key : string) :
  ~ In key (map label (columns df)) -> getitem df key = raise (KeyError key).
Proof.
  unfold getitem. intro H.
  destruct (find (has_label key) (columns df)) as [c |] eqn:E;
    [| reflexivity].
  exfalso. apply find_some in E. destruct E as [Hin Hl].
  unfold has_label in Hl. apply String.eqb_eq in Hl. subst key.
  apply H. apply in_map. exact Hin.
Qed.

Section RunFacts.

Variable sqrt_q : Qc -> Qc.

Lemma frame_of_rows (spy_data : Series) (cols : list Column) :
  frame_of
    (map label cols)
    (map (fun ps => (((snd (fst ps) - snd (snd ps)) / snd (snd ps))
                     * of_Z 100)%float)
         (combine
            (map (fun c => (label c, last (values c) NaN)) cols)
            (map (fun c => (label c, last (values c) NaN))
                 (map (fun c => (label c, rolling_mean 50 (values c)))
                      cols))))
    (map (fun c => (std sqrt_q (values c) * sqrt_252 sqrt_q
                    * of_Z 100)%float)
         (map (fun c => (label c, pct_change (values c))) cols))
    (map (fun c => (cov (values c) (pct_change spy_data)
                    / var (pct_change spy_data))%float)
         (map (fun c => (label c, pct_change (values c))) cols))
  = map (row_of sqrt_q spy_data) cols.
Proof.
  induction cols as [| c cols IH]; simpl; [reflexivity |].
  rewrite IH. reflexivity.
Qed.

(** A run that reaches the metrics table found the benchmark, had at least
    one trading day, and built one row per stock column, in column
    order. *)
Lemma compute_metrics_inv (t : PriceTable) (m : list MetricsRow) :
  compute_metrics sqrt_q t = ret m ->
  exists spy_data,
    benchmark t = ret spy_data
    /\ days t <> []
    /\ m = map (row_of sqrt_q spy_data) (stock_columns t).
Proof.
  unfold compute_metrics, benchmark, stock_columns, cleaned.
  destruct (getitem (dropna (close_frame t)) "SPY"%string)
    as [e | spy_data] eqn:Eg; simpl; [discriminate |].
  unfold drop.
  destruct (existsb (has_label "SPY"%string)
                    (columns (dropna (close_frame t)))); simpl;
    [| discriminate].
  unfold iloc_last; simpl.
  destruct (days t) as [| d ds] eqn:Ed; simpl; [discriminate |].
  intro H. exists spy_data. split; [reflexivity |].
  split; [discriminate |].
  unfold ret in H. injection H as <-.
  apply frame_of_rows.
Qed.

(** C8. When the benchmark column 'SPY' is not among the columns of the
    cleaned table, the run stops with the KeyError raised by the lookup of
    the benchmark: neither the metrics table nor anything after it is
    produced. *)
Theorem missing_benchmark_aborts (t : PriceTable) :
  ~ In "SPY"%string (map label (columns (cleaned t))) ->
  compute_metrics sqrt_q t = raise (KeyError "SPY")
  /\ dashboard sqrt_q t = raise (KeyError "SPY").
Proof.
  intro H. apply getitem_absent in H.
  assert (E : compute_metrics sqrt_q t = raise (KeyError "SPY")).
  { unfold compute_metrics. fold (cleaned t). rewrite H. reflexivity. }
  split; [exact E |].
  unfold dashboard. rewrite E. reflexivity.
Qed.

End RunFacts.

(* ================================================================== *)
(** ** Finite values                                                    *)
(* ================================================================== *)

Lemma nat_q_pos (n : nat) : 0 < n -> (nat_q n ?= 0)%Qc = Gt.
Proof.
  intro H. apply Qcgt_alt. unfold nat_q, Q2Qc. cbn [this].
  rewrite !Qred_correct. unfold Qlt; simpl. lia.
Qed.

Lemma of_nat_Fin (n : nat) : of_nat n = Fin (nat_q n).
Proof. reflexivity. Qed.

Lemma fdiv_Fin_nat (a : Qc) (n : nat) :
  0 < n -> (Fin a / of_nat n)%float = Fin (a / nat_q n)%Qc.
Proof.
  intro H. rewrite of_nat_Fin. simpl. rewrite (nat_q_pos n H). reflexivity.
Qed.

Lemma fsum_Fin (l : list Qc) : fsum (map Fin l) = Fin (sum_q l).
Proof.
  induction l as [| a l IH]; [reflexivity |].
  unfold fsum in *. simpl. rewrite IH. reflexivity.
Qed.

Lemma filter_notna_Fin (l : list Qc) : filter notna (map Fin l) = map Fin l.
Proof.
  induction l as [| a l IH]; simpl; [reflexivity | rewrite IH; reflexivity].
Qed.

Lemma last_map_Fin (l : list Qc) (d : Qc) :
  l <> [] -> last (map Fin l) NaN = Fin (last l d).
Proof.
  induction l as [| a l IH]; [congruence |].
  intros _. destruct l as [| b l]; [reflexivity |].
  change (last (map Fin (b :: l)) NaN = Fin (last (b :: l) d)).
  apply IH. discriminate.
Qed.

(** A column without NaN that came from the download holds finite closes. *)
Lemma complete_prices (raw : list (option Qc)) :
  forallb notna (map to_float raw) = true ->
  exists prices, map to_float raw = map Fin prices.
Proof.
  induction raw as [| [q |] raw IH]; simpl.
  - intros _. exists []. reflexivity.
  - intro H. destruct (IH H) as [ps Hps]. exists (q :: ps).
    simpl. rewrite Hps. reflexivity.
  - discriminate.
Qed.

Lemma cleaned_prices (t : PriceTable) (c : Column) :
  In c (columns (cleaned t)) -> exists prices, values c = map Fin prices.
Proof.
  unfold cleaned, dropna; simpl. intro H.
  apply filter_In in H. destruct H as [Hin Hc].
  apply in_map_iff in Hin. destruct Hin as [[l raw] [<- _]].
  unfold complete in Hc; simpl in *. exact (complete_prices raw Hc).
Qed.

Lemma stock_prices (t : PriceTable) (c : Column) :
  In c (stock_columns t) -> exists prices, values c = map Fin prices.
Proof.
  unfold stock_columns. intro H. apply filter_In in H.
  exact (cleaned_prices t c (proj1 H)).
Qed.

(* ================================================================== *)
(** ** Rolling mean and trend distance                                  *)
(* ================================================================== *)

Lemma last_map_seq {A : Type} (f : nat -> A) (n : nat) (d : A) :
  last (map f (seq 0 (S n))) d = f n.
Proof.
  rewrite seq_S, map_app. simpl. apply last_last.
Qed.

Lemma rolling_mean_last (w : nat) (s : Series) :
  s <> [] -> last (rolling_mean w s) NaN = window_mean w (lastn w s).
Proof.
  intro Hs. unfold rolling_mean, lastn.
  destruct (length s) as [| n] eqn:En.
  - destruct s; [congruence | discriminate].
  - rewrite last_map_seq. rewrite <- En, firstn_all. reflexivity.
Qed.

Lemma length_lastn {A : Type} (n : nat) (l : list A) :
  n <= length l -> length (lastn n l) = n.
Proof.
  intro H. unfold lastn. rewrite length_skipn. lia.
Qed.

Lemma lastn_map {A B : Type} (f : A -> B) (n : nat) (l : list A) :
  lastn n (map f l) = map f (lastn n l).
Proof.
  unfold lastn. rewrite length_map, skipn_map. reflexivity.
Qed.

Lemma window_mean_full (w : nat) (l : list Qc) :
  0 < w -> length l = w -> window_mean w (map Fin l) = Fin (mean_q l).
Proof.
  intros Hw Hl. unfold window_mean.
  rewrite filter_notna_Fin, length_map, Hl.
  rewrite Nat.ltb_irrefl. simpl.
  destruct (w =? 0) eqn:E; [apply Nat.eqb_eq in E; lia |].
  rewrite fsum_Fin, fdiv_Fin_nat by exact Hw.
  unfold mean_q. rewrite Hl. reflexivity.
Qed.

Lemma window_mean_short (w : nat) (win : Series) :
  length win < w -> window_mean w win = NaN.
Proof.
  intro H. unfold window_mean.
  assert (Hf : length (filter notna win) <= length win)
    by apply filter_length_le.
  destruct (length (filter notna win) <? w) eqn:E; [reflexivity |].
  apply Nat.ltb_ge in E. lia.
Qed.

(** The trend distance of a column of at least 50 finite closes. *)
Lemma trend_of_prices (prices : list Qc) :
  50 <= length prices ->
  trend_of (map Fin prices)
  = (((Fin (last prices 0%Qc) - Fin (mean_q (lastn 50 prices)))
      / Fin (mean_q (lastn 50 prices))) * of_Z 100)%float.
Proof.
  intro H.
  assert (Hne : prices <> []) by (destruct prices; simpl in H; [lia | discriminate]).
  unfold trend_of.
  rewrite rolling_mean_last by (destruct prices; [congruence | discriminate]).
  rewrite lastn_map.
  rewrite window_mean_full by (try lia; apply length_lastn; exact H).
  rewrite (last_map_Fin prices 0%Qc Hne). reflexivity.
Qed.

(** The trend distance of a column of fewer than 50 values. *)
Lemma trend_of_short (s : Series) :
  length s < 50 -> trend_of s = NaN.
Proof.
  intro H. unfold trend_of.
  destruct s as [| x s'] eqn:Es; [reflexivity |].
  rewrite rolling_mean_last by discriminate.
  rewrite window_mean_short.
  - destruct (last (x :: s') NaN); reflexivity.
  - unfold lastn. rewrite length_skipn. lia.
Qed.

(* ================================================================== *)
(** ** Order on floats, sorting and the screener                        *)
(* ================================================================== *)

Lemma flt_notna (x y : float64) : flt x y = true -> x <> NaN /\ y <> NaN.
Proof.
  destruct x, y; simpl; intro H; try discriminate; split; discriminate.
Qed.

Lemma flt_fle (x y : float64) : flt x y = true -> fle x y = true.
Proof.
  destruct x as [| | | a], y as [| | | b]; simpl; try congruence.
  destruct (a ?= b)%Qc; congruence.
Qed.

Lemma flt_false_fle (x y : float64) :
  x <> NaN -> y <> NaN -> flt x y = false -> fle y x = true.
Proof.
  destruct x as [| | | a], y as [| | | b]; simpl; try congruence.
  intros _ _. destruct (a ?= b)%Qc eqn:E; try congruence; intros _.
  - apply Qceq_alt in E. subst b.
    destruct (a ?= a)%Qc eqn:E'; try reflexivity.
    apply Qcgt_alt in E'. exfalso. exact (Qlt_irrefl _ E').
  - apply Qcgt_alt in E.
    destruct (b ?= a)%Qc eqn:E'; try reflexivity.
    apply Qcgt_alt in E'. exfalso.
    exact (Qlt_irrefl _ (Qlt_trans _ _ _ E E')).
Qed.

Lemma flt_Fin (a b : Qc) : flt (Fin a) (Fin b) = true <-> (a < b)%Qc.
Proof.
  simpl. rewrite Qclt_alt. destruct (a ?= b)%Qc; split; congruence.
Qed.

Lemma zero_Fin : zero = Fin 0%Qc.
Proof. reflexivity. Qed.

Lemma fle_trans (x y z : float64) :
  fle x y = true -> fle y z = true -> fle x z = true.
Proof.
  destruct x as [| | | a], y as [| | | b], z as [| | | c]; simpl;
    try congruence.
  intros H1 H2.
  assert (L1 : (a <= b)%Qc).
  { apply Qcle_alt. intro E. rewrite E in H1. discriminate. }
  assert (L2 : (b <= c)%Qc).
  { apply Qcle_alt. intro E. rewrite E in H2. discriminate. }
  pose proof (Qcle_trans _ _ _ L1 L2) as L.
  apply Qcle_alt in L.
  destruct (a ?= c)%Qc eqn:E; try reflexivity.
  exfalso. exact (L E).
Qed.

Lemma insert_desc_perm (r : MetricsRow) (l : list MetricsRow) :
  Permutation (insert_desc r l) (r :: l).
Proof.
  induction l as [| h t IH]; simpl; [apply Permutation_refl |].
  destruct (flt (Distance_SMA r) (Distance_SMA h)).
  - eapply Permutation_trans; [apply perm_skip, IH | apply perm_swap].
  - apply Permutation_refl.
Qed.

Lemma sort_desc_perm (l : list MetricsRow) : Permutation (sort_desc l) l.
Proof.
  induction l as [| r l IH]; simpl; [constructor |].
  eapply Permutation_trans; [apply insert_desc_perm |].
  apply perm_skip, IH.
Qed.

Lemma insert_desc_sorted (r : MetricsRow) (l : list MetricsRow) :
  keyed r -> Forall keyed l ->
  StronglySorted desc l -> StronglySorted desc (insert_desc r l).
Proof.
  intros Hr Hl Hs. induction Hs as [| h t Hs IH Hh]; simpl.
  - constructor; constructor.
  - inversion Hl as [| ? ? Hkh Hkt]; subst.
    destruct (flt (Distance_SMA r) (Distance_SMA h)) eqn:E.
    + constructor; [exact (IH Hkt) |].
      apply Forall_forall. intros x Hx.
      apply (Permutation_in _ (insert_desc_perm r t)) in Hx.
      destruct Hx as [<- | Hx].
      * unfold desc. apply flt_fle. exact E.
      * rewrite Forall_forall in Hh. exact (Hh x Hx).
    + assert (Hrh : desc r h)
        by (unfold desc; apply flt_false_fle; assumption).
      constructor; [constructor; assumption |].
      constructor; [exact Hrh |].
      apply Forall_forall. intros x Hx. rewrite Forall_forall in Hh.
      unfold desc in *. eapply fle_trans; [exact (Hh x Hx) | exact Hrh].
Qed.

Lemma sort_desc_sorted (l : list MetricsRow) :
  Forall keyed l -> StronglySorted desc (sort_desc l).
Proof.
  induction 1 as [| r l Hr Hl IH]; simpl; [constructor |].
  apply insert_desc_sorted; [exact Hr | | exact IH].
  apply Forall_forall. intros x Hx.
  apply (Permutation_in _ (sort_desc_perm l)) in Hx.
  rewrite Forall_forall in Hl. exact (Hl x Hx).
Qed.

Lemma filter_all {A : Type} (f : A -> bool) (l : list A) :
  Forall (fun x => f x = true) l -> filter f l = l.
Proof.
  induction 1 as [| x l Hx _ IH]; simpl; [reflexivity |].
  rewrite Hx, IH. reflexivity.
Qed.

Lemma filter_none {A : Type} (f : A -> bool) (l : list A) :
  Forall (fun x => f x = false) l -> filter f l = [].
Proof.
  induction 1 as [| x l Hx _ IH]; simpl; [reflexivity |].
  rewrite Hx. exact IH.
Qed.

Lemma candidate_keyed (floor ceiling : float64) (r : MetricsRow) :
  candidate floor ceiling r = true -> keyed r.
Proof.
  unfold candidate, keyed, fgt. intro H.
  apply andb_true_iff in H. destruct H as [H _].
  exact (proj2 (flt_notna _ _ H)).
Qed.

Lemma sort_values_desc_keyed (l : list MetricsRow) :
  Forall keyed l -> sort_values_desc l = sort_desc l.
Proof.
  intro H. unfold sort_values_desc.
  rewrite filter_all, filter_none.
  - apply app_nil_r.
  - eapply Forall_impl; [| exact H]. intros r Hr.
    unfold keyed in Hr. destruct (Distance_SMA r); simpl; congruence.
  - eapply Forall_impl; [| exact H]. intros r Hr.
    apply notna_true_iff. exact Hr.
Qed.

Lemma StronglySorted_firstn {A : Type} (R : A -> A -> Prop) (n : nat)
      (l : list A) :
  StronglySorted R l -> StronglySorted R (firstn n l).
Proof.
  intro H. revert n. induction H as [| a l Hs IH Ha]; intro n.
  - rewrite firstn_nil. constructor.
  - destruct n as [| n]; simpl; [constructor |].
    constructor; [apply IH |].
    apply Forall_forall. intros x Hx. rewrite Forall_forall in Ha.
    apply Ha. revert Hx. clear. revert n.
    induction l as [| b l IH]; intros [| n]; simpl; try tauto.
    intros [-> | H]; [left; reflexivity | right; exact (IH n H)].
Qed.

Lemma firstn_In {A : Type} (n : nat) (l : list A) (x : A) :
  In x (firstn n l) -> In x l.
Proof.
  revert n. induction l as [| b l IH]; intros [| n]; simpl; try tauto.
  intros [-> | H]; [left; reflexivity | right; exact (IH n H)].
Qed.

Lemma screener_with_In (floor ceiling : float64) (m : list MetricsRow)
      (r : MetricsRow) :
  In r (screener_with floor ceiling m) ->
  In r m /\ candidate floor ceiling r = true.
Proof.
  unfold screener_with. intro H. apply firstn_In in H.
  assert (Hk : Forall keyed (filter (candidate floor ceiling) m)).
  { apply Forall_forall. intros x Hx. apply filter_In in Hx.
    exact (candidate_keyed _ _ _ (proj2 Hx)). }
  rewrite (sort_values_desc_keyed _ Hk) in H.
  apply (Permutation_in _ (sort_desc_perm _)) in H.
  apply filter_In in H. exact H.
Qed.

(** C6. For any metrics table and any two thresholds, the screener returns
    the first five (or all, when there are fewer) of an arrangement, in
    decreasing order of trend distance, of exactly the rows of the table
    with Distance_SMA > floor and Volatility < ceiling, each as often as
    the table has it; so its output is in decreasing order of trend
    distance, has five rows when at least five rows pass the two tests and
    as many as pass otherwise, and every row of it is a row of the table
    that passes both tests.  The script's screener is the one at the
    thresholds 5 and 25. *)
Theorem screener_contract (floor ceiling : float64) (m : list MetricsRow) :
  (exists arranged,
      Permutation arranged
                  (filter (fun r => fgt (Distance_SMA r) floor
                                    && flt (Volatility r) ceiling) m)
      /\ (forall r,
             In r arranged <->
             In r m /\ fgt (Distance_SMA r) floor = true
             /\ flt (Volatility r) ceiling = true)
      /\ StronglySorted desc arranged
      /\ screener_with floor ceiling m = firstn 5 arranged)
  /\ StronglySorted desc (screener_with floor ceiling m)
  /\ length (screener_with floor ceiling m)
     = Nat.min 5 (length (filter (fun r => fgt (Distance_SMA r) floor
                                           && flt (Volatility r) ceiling) m))
  /\ length (screener_with floor ceiling m) <= 5
  /\ Forall (fun r => In r m
                      /\ fgt (Distance_SMA r) floor = true
                      /\ flt (Volatility r) ceiling = true)
            (screener_with floor ceiling m)
  /\ screener m = screener_with (of_Z 5) (of_Z 25) m.
Proof.
  change (filter (fun r => fgt (Distance_SMA r) floor
                           && flt (Volatility r) ceiling) m)
    with (filter (candidate floor ceiling) m).
  assert (Hk : Forall keyed (filter (candidate floor ceiling) m)).
  { apply Forall_forall. intros x Hx. apply filter_In in Hx.
    exact (candidate_keyed _ _ _ (proj2 Hx)). }
  assert (Hs : StronglySorted desc
                 (sort_values_desc (filter (candidate floor ceiling) m))).
  { rewrite (sort_values_desc_keyed _ Hk). apply sort_desc_sorted, Hk. }
  assert (Hp : Permutation
                 (sort_values_desc (filter (candidate floor ceiling) m))
                 (filter (candidate floor ceiling) m)).
  { rewrite (sort_values_desc_keyed _ Hk). apply sort_desc_perm. }
  split; [| split; [| split; [| split; [| split]]]].
  - exists (sort_values_desc (filter (candidate floor ceiling) m)).
    split; [exact Hp |].
    split; [| split; [exact Hs | reflexivity]].
    intro r. split.
    + intro Hr. apply (Permutation_in _ Hp) in Hr.
      apply filter_In in Hr. destruct Hr as [Hin Hc].
      unfold candidate in Hc. apply andb_true_iff in Hc. tauto.
    + intros [Hin [Hd Hv]].
      apply (Permutation_in _ (Permutation_sym Hp)).
      apply filter_In. split; [exact Hin |].
      unfold candidate. rewrite Hd, Hv. reflexivity.
  - unfold screener_with. apply StronglySorted_firstn. exact Hs.
  - unfold screener_with. rewrite length_firstn.
    rewrite (Permutation_length Hp). reflexivity.
  - unfold screener_with. apply firstn_le_length.
  - apply Forall_forall. intros r Hr.
    apply screener_with_In in Hr. destruct Hr as [Hin Hc].
    unfold candidate in Hc. apply andb_true_iff in Hc. tauto.
  - reflexivity.
Qed.

(* ================================================================== *)
(** ** Trend distance                                                   *)
(* ================================================================== *)

Lemma Forall2_map_r {A B : Type} (P : A -> B -> Prop) (f : A -> B)
      (l : list A) :
  Forall (fun a => P a (f a)) l -> Forall2 P l (map f l).
Proof.
  induction 1 as [| a l Ha _ IH]; simpl; constructor; assumption.
Qed.

Lemma Qc_this_mult (x y : Qc) : (this (x * y)%Qc == this x * this y)%Q.
Proof. unfold Qcmult, Q2Qc. cbn [this]. apply Qred_correct. Qed.

Lemma Qc_this_plus (x y : Qc) : (this (x + y)%Qc == this x + this y)%Q.
Proof. unfold Qcplus, Q2Qc. cbn [this]. apply Qred_correct. Qed.

Lemma Qc_this_opp (x : Qc) : (this (- x)%Qc == - this x)%Q.
Proof. unfold Qcopp, Q2Qc. cbn [this]. apply Qred_correct. Qed.

Lemma Qc_this_inv (x : Qc) : (this (/ x)%Qc == / this x)%Q.
Proof. unfold Qcinv, Q2Qc. cbn [this]. apply Qred_correct. Qed.

Lemma Qc_this_Z (z : Z) : (this (Q2Qc (inject_Z z)) == inject_Z z)%Q.
Proof. unfold Q2Qc. cbn [this]. apply Qred_correct. Qed.

(** The sign of ((c - s) / s) * 100 for a positive s. *)
Lemma pct_sign (c s : Qc) :
  (0 < s)%Qc ->
  let x := (((c + - s) / s) * Q2Qc (inject_Z 100))%Qc in
  ((0 < x)%Qc <-> (s < c)%Qc)
  /\ ((x < 0)%Qc <-> (c < s)%Qc)
  /\ (c = s -> x = 0%Qc).
Proof.
  intros Hs x.
  assert (Hx : (this x == (this c - this s) * / this s * 100)%Q).
  { unfold x, Qcdiv.
    rewrite !Qc_this_mult, Qc_this_inv, Qc_this_plus, Qc_this_opp, Qc_this_Z.
    reflexivity. }
  unfold Qclt in *. change (this 0%Qc) with 0%Q in *.
  assert (Hi : (0 < / this s)%Q) by (apply Qinv_lt_0_compat; exact Hs).
  rewrite Hx. set (i := (/ this s)%Q) in *.
  set (a := this c) in *. set (b := this s) in *.
  split; [| split].
  - split; intro H.
    + destruct (Qlt_le_dec b a) as [L | L]; [exact L | exfalso].
      assert (Hle : ((a - b) * i * 100 <= 0)%Q) by nra.
      exact (Qlt_irrefl _ (Qlt_le_trans _ _ _ H Hle)).
    + nra.
  - split; intro H.
    + destruct (Qlt_le_dec a b) as [L | L]; [exact L | exfalso].
      assert (Hle : (0 <= (a - b) * i * 100)%Q) by nra.
      exact (Qlt_irrefl _ (Qle_lt_trans _ _ _ Hle H)).
    + nra.
  - intro E. apply Qc_is_canon. rewrite Hx.
    change (this 0%Qc) with 0%Q. unfold a. rewrite E. fold b. ring.
Qed.

Section Trend.

Variable sqrt_q : Qc -> Qc.

Lemma dashboard_inv (t : PriceTable) (d : Dashboard) :
  dashboard sqrt_q t = ret d ->
  compute_metrics sqrt_q t = ret (metrics d)
  /\ printed d = screener (metrics d)
  /\ bullish_count d = length (filter bullish (metrics d))
  /\ bearish_count d = length (metrics d) - bullish_count d.
Proof.
  unfold dashboard.
  destruct (compute_metrics sqrt_q t) as [e | m]; simpl; [discriminate |].
  intro H. unfold ret in H. injection H as <-. simpl.
  repeat split; reflexivity.
Qed.

(** C3. In a run that reaches the metrics table, every stock column holds
    finite closes, and when there are at least 50 of them the row of the
    asset carries (last_close - last_sma) / last_sma * 100, where last_sma
    is the arithmetic mean of the 50 most recent closes, the last day
    included. *)
Theorem trend_distance_formula (t : PriceTable) (m : list MetricsRow) :
  compute_metrics sqrt_q t = ret m ->
  Forall2 (fun c r =>
             Ticker r = label c
             /\ exists prices,
                 values c = map Fin prices
                 /\ (50 <= length prices ->
                     Distance_SMA r = trend_distance_pct prices
                     /\ last_sma prices
                        = (sum_q (lastn 50 prices) / nat_q 50)%Qc
                     /\ length (lastn 50 prices) = 50))
          (stock_columns t) m.
Proof.
  intro H. apply compute_metrics_inv in H.
  destruct H as [spy_data [_ [_ ->]]].
  apply Forall2_map_r, Forall_forall. intros c Hc.
  split; [reflexivity |].
  destruct (stock_prices t c Hc) as [prices Hp].
  exists prices. split; [exact Hp |]. intro Hlen.
  split; [| split].
  - simpl. rewrite Hp. apply trend_of_prices. exact Hlen.
  - unfold last_sma, mean_q. rewrite length_lastn by exact Hlen. reflexivity.
  - apply length_lastn. exact Hlen.
Qed.

End Trend.

(* ================================================================== *)
(** ** Returns and volatility                                           *)
(* ================================================================== *)

Lemma pct_change_tail (prev : float64) (rest : Series) :
  map (fun p => (fst p / snd p - one)%float)
      (combine rest (removelast (prev :: rest)))
  = returns_series (prev :: rest).
Proof.
  revert prev. induction rest as [| p rest IH]; intro prev; [reflexivity |].
  change (removelast (prev :: p :: rest)) with (prev :: removelast (p :: rest)).
  cbn [combine map fst snd]. rewrite IH. reflexivity.
Qed.

(** The script's daily returns: NaN on the first day, then the returns
    series. *)
Lemma pct_change_returns (s : Series) :
  s <> [] -> pct_change s = NaN :: returns_series s.
Proof.
  destruct s as [| x rest]; [congruence |]. intros _.
  unfold pct_change, shift1. cbn [combine map fst snd].
  rewrite pct_change_tail.
  destruct x; reflexivity.
Qed.

Lemma length_returns_series (s : Series) :
  length (returns_series s) = length s - 1.
Proof.
  induction s as [| x rest IH]; [reflexivity |].
  destruct rest as [| p rest']; [reflexivity |].
  change (returns_series (x :: p :: rest'))
    with ((p / x - one)%float :: returns_series (p :: rest')).
  cbn [length]. rewrite IH. simpl. lia.
Qed.

Lemma filter_notna_all (xs : Series) :
  ~ In NaN xs -> filter notna xs = xs.
Proof.
  intro H. apply filter_all, Forall_forall. intros x Hx.
  apply notna_true_iff. intros ->. exact (H Hx).
Qed.

Lemma sq_dev_sym (a b : float64) :
  ((a - b) * (a - b))%float = ((b - a) * (b - a))%float.
Proof.
  destruct a as [| | | p], b as [| | | q]; try reflexivity.
  unfold fsub, fneg, fadd, fmul. f_equal. ring.
Qed.

Lemma nat_q_1 : nat_q 1 = 1%Qc.
Proof. apply Qc_is_canon. reflexivity. Qed.

Lemma sample_var_single (x : float64) : sample_var [x] = NaN.
Proof.
  destruct x as [| | | q]; try reflexivity.
  unfold sample_var, fsum. cbn [length map fold_right Nat.sub].
  rewrite zero_Fin. cbn [fadd]. rewrite fdiv_Fin_nat by lia.
  cbn [fsub fneg fadd fmul].
  replace ((q + - ((q + 0) / nat_q 1)) * (q + - ((q + 0) / nat_q 1)) + 0)%Qc
    with 0%Qc.
  - reflexivity.
  - rewrite nat_q_1. field. apply Q_apart_0_1.
Qed.

(** On a sequence of returns none of which is undefined, pandas' variance of
    the daily returns (which skips the NaN of the first day) is the sample
    variance of the returns series. *)
Lemma var_daily_returns (rs : Series) :
  rs <> [] -> ~ In NaN rs -> var (NaN :: rs) = sample_var rs.
Proof.
  intros Hne Hnan. unfold var.
  cbn [filter notna isnan negb]. rewrite (filter_notna_all rs Hnan).
  destruct rs as [| x [| y rs']]; [congruence | |].
  - cbn [length Nat.leb]. symmetry. apply sample_var_single.
  - cbn [length Nat.leb]. unfold sample_var. cbn [length].
    f_equal. f_equal. apply map_ext. intro a. apply sq_dev_sym.
Qed.

Section VolatilityFacts.

Variable sqrt_q : Qc -> Qc.

(** C4, as the script has it.  For an asset with at least two closes none
    of whose day-over-day returns is undefined, the volatility is the sample
    standard deviation of its returns series (one return per day after the
    first, so one fewer than there are closes), times sqrt(252), times
    100. *)
Theorem volatility_formula (t : PriceTable) (m : list MetricsRow) :
  compute_metrics sqrt_q t = ret m ->
  Forall2 (fun c r =>
             Ticker r = label c
             /\ (2 <= length (values c) ->
                 ~ In NaN (returns_series (values c)) ->
                 Volatility r
                 = (sample_std sqrt_q (returns_series (values c))
                    * sqrt_252 sqrt_q * of_Z 100)%float
                 /\ length (returns_series (values c))
                    = length (values c) - 1))
          (stock_columns t) m.
Proof.
  intro H. apply compute_metrics_inv in H.
  destruct H as [spy_data [_ [_ ->]]].
  apply Forall2_map_r, Forall_forall. intros c _.
  split; [reflexivity |]. intros Hlen Hnan.
  split; [| apply length_returns_series].
  cbn [Volatility row_of]. unfold volatility_of, std, sample_std.
  rewrite pct_change_returns
    by (destruct (values c); [simpl in Hlen; lia | discriminate]).
  rewrite var_daily_returns; [reflexivity | | exact Hnan].
  pose proof (length_returns_series (values c)) as L.
  destruct (returns_series (values c)); [simpl in L; lia | discriminate].
Qed.

End VolatilityFacts.

(* ================================================================== *)
(** ** Variance and covariance of finite data                           *)
(* ================================================================== *)

Lemma Fin_inj (a b : Qc) : Fin a = Fin b -> a = b.
Proof.
  intro H.
  exact (f_equal (fun x => match x with Fin q => q | _ => a end) H).
Qed.

Lemma fadd_Fin_inv (a b : float64) (s : Qc) :
  (a + b)%float = Fin s -> exists p q, a = Fin p /\ b = Fin q /\ s = (p + q)%Qc.
Proof.
  destruct a as [| | | p], b as [| | | q]; simpl; try discriminate.
  intro H. injection H as <-. exists p, q. repeat split.
Qed.

Lemma fsub_Fin_inv (a b : float64) (s : Qc) :
  (a - b)%float = Fin s -> exists p q, a = Fin p /\ b = Fin q /\ s = (p - q)%Qc.
Proof.
  destruct a as [| | | p], b as [| | | q]; simpl; try discriminate.
  intro H. injection H as <-. exists p, q. repeat split.
Qed.

Lemma fmul_self_Fin_inv (a : float64) (s : Qc) :
  (a * a)%float = Fin s -> exists p, a = Fin p.
Proof.
  destruct a as [| | | p]; simpl; try discriminate.
  intros _. exists p. reflexivity.
Qed.

Lemma nat_q_0 : nat_q 0 = 0%Qc.
Proof. apply Qc_is_canon. reflexivity. Qed.

Lemma Qccompare_refl (q : Qc) : (q ?= q)%Qc = Eq.
Proof. apply Qceq_alt. reflexivity. Qed.

Lemma fdiv_nat_Fin_inv (a : float64) (n : nat) (v : Qc) :
  (a / of_nat n)%float = Fin v ->
  exists p, a = Fin p /\ 0 < n /\ v = (p / nat_q n)%Qc.
Proof.
  rewrite of_nat_Fin. destruct n as [| n].
  - rewrite nat_q_0. destruct a as [| | | p]; cbn [fdiv]; try discriminate;
      rewrite Qccompare_refl; try discriminate.
    destruct (p ?= 0)%Qc; discriminate.
  - destruct a as [| | | p]; cbn [fdiv]; try discriminate;
      rewrite (nat_q_pos (S n)) by lia; try discriminate.
    intro H. injection H as <-. exists p. repeat split. lia.
Qed.

Lemma fsum_Fin_inv (l : Series) (s : Qc) :
  fsum l = Fin s -> exists qs, l = map Fin qs /\ s = sum_q qs.
Proof.
  revert s. induction l as [| a l IH]; intros s H.
  - exists []. split; [reflexivity |].
    unfold fsum in H; simpl in H. rewrite zero_Fin in H.
    injection H as <-. reflexivity.
  - unfold fsum in H. cbn [fold_right] in H. fold (fsum l) in H.
    apply fadd_Fin_inv in H. destruct H as [p [q [-> [Hq ->]]]].
    destruct (IH q Hq) as [qs [-> ->]].
    exists (p :: qs). split; reflexivity.
Qed.

Lemma all_Fin (l : Series) :
  Forall (fun x => exists q, x = Fin q) l -> exists qs, l = map Fin qs.
Proof.
  induction 1 as [| x l [q ->] _ [qs ->]].
  - exists []. reflexivity.
  - exists (q :: qs). reflexivity.
Qed.

(** Where pandas' variance is a finite number, the values it was taken over
    (the non-NaN ones) are at least two finite numbers. *)
Lemma var_finite_vals (x : Series) (v : Qc) :
  var x = Fin v ->
  exists qs, filter notna x = map Fin qs /\ 2 <= length qs.
Proof.
  unfold var. set (vals := filter notna x).
  destruct (length vals <=? 1) eqn:E; [discriminate |].
  apply Nat.leb_gt in E. intro H.
  apply fdiv_nat_Fin_inv in H. destruct H as [S [HS _]].
  apply fsum_Fin_inv in HS. destruct HS as [ss [Hss _]].
  assert (Hall : Forall (fun a => exists q, a = Fin q) vals).
  { apply Forall_forall. intros a Ha.
    assert (Hin : In ((fsum vals / of_nat (length vals) - a)
                      * (fsum vals / of_nat (length vals) - a))%float
                     (map Fin ss)).
    { rewrite <- Hss.
      exact (in_map (fun a => ((fsum vals / of_nat (length vals) - a)
                               * (fsum vals / of_nat (length vals) - a))%float)
                    vals a Ha). }
    apply in_map_iff in Hin. destruct Hin as [s [Hs _]]. symmetry in Hs.
    apply fmul_self_Fin_inv in Hs. destruct Hs as [p Hp].
    apply fsub_Fin_inv in Hp. destruct Hp as [_ [q [_ [Hq _]]]].
    exists q. exact Hq. }
  destruct (all_Fin vals Hall) as [qs Hqs]. exists qs.
  split; [exact Hqs |]. rewrite Hqs, length_map in E. lia.
Qed.

Lemma var_Fin (x : Series) (qs : list Qc) :
  filter notna x = map Fin qs -> 2 <= length qs ->
  var x = Fin (sum_q (map (fun q => (mean_q qs - q) * (mean_q qs - q))%Qc qs)
               / nat_q (length qs - 1))%Qc.
Proof.
  intros Hx Hl. unfold var. rewrite Hx, length_map.
  destruct (length qs <=? 1) eqn:E; [apply Nat.leb_le in E; lia |].
  rewrite fsum_Fin, fdiv_Fin_nat by lia. fold (mean_q qs).
  rewrite map_map. cbn [fsub fneg fadd fmul].
  rewrite <- (map_map (fun q => (mean_q qs - q) * (mean_q qs - q))%Qc Fin).
  rewrite fsum_Fin, fdiv_Fin_nat by lia. reflexivity.
Qed.

Lemma valid_pairs_self (x : Series) :
  filter (fun p => notna (fst p) && notna (snd p)) (combine x x)
  = map (fun v => (v, v)) (filter notna x).
Proof.
  induction x as [| a x IH]; [reflexivity |].
  cbn [combine filter fst snd]. destruct (notna a); simpl; rewrite IH;
    reflexivity.
Qed.

Lemma cov_self_Fin (x : Series) (qs : list Qc) :
  filter notna x = map Fin qs -> 2 <= length qs ->
  cov x x
  = Fin (sum_q (map (fun q => (q - mean_q qs) * (q - mean_q qs))%Qc qs)
         * (1 / nat_q (length qs - 1)))%Qc.
Proof.
  intros Hx Hl. unfold cov. rewrite valid_pairs_self, Hx.
  rewrite !length_map, !map_map. cbn [fst snd].
  destruct (length qs <? 1) eqn:E; [apply Nat.ltb_lt in E; lia |].
  rewrite fsum_Fin, fdiv_Fin_nat by lia. fold (mean_q qs).
  cbn [fsub fneg fadd fmul].
  rewrite <- (map_map (fun q => (q - mean_q qs) * (q - mean_q qs))%Qc Fin).
  rewrite fsum_Fin.
  change one with (Fin 1%Qc). rewrite fdiv_Fin_nat by lia. reflexivity.
Qed.

Lemma beta_self (x : Series) (v : Qc) :
  var x = Fin v -> v <> 0%Qc -> (cov x x / var x)%float = one.
Proof.
  intros Hv Hnz.
  destruct (var_finite_vals x v Hv) as [qs [Hx Hl]].
  rewrite (cov_self_Fin x qs Hx Hl).
  rewrite (var_Fin x qs Hx Hl) in Hv |- *.
  apply Fin_inj in Hv.
  replace (map (fun q => (q - mean_q qs) * (q - mean_q qs))%Qc qs)
    with (map (fun q => (mean_q qs - q) * (mean_q qs - q))%Qc qs)
    by (apply map_ext; intro q; ring).
  set (S := sum_q (map (fun q => (mean_q qs - q) * (mean_q qs - q))%Qc qs))
    in *.
  set (k := nat_q (length qs - 1)) in *.
  assert (Hk : k <> 0%Qc).
  { intro E. apply Hnz. rewrite <- Hv, E. unfold Qcdiv.
    change (/ 0)%Qc with 0%Qc. ring. }
  cbn [fdiv]. rewrite Hv.
  destruct (v ?= 0)%Qc eqn:Ec.
  - apply Qceq_alt in Ec. contradiction.
  - change one with (Fin 1%Qc). f_equal. rewrite <- Hv. field.
    split; [exact Hk |]. intro ES. apply Hnz. rewrite <- Hv, ES.
    unfold Qcdiv. ring.
  - change one with (Fin 1%Qc). f_equal. rewrite <- Hv. field.
    split; [exact Hk |]. intro ES. apply Hnz. rewrite <- Hv, ES.
    unfold Qcdiv. ring.
Qed.

(* ================================================================== *)
(** ** A benchmark without variance                                     *)
(* ================================================================== *)

Lemma Qc_sq_nonneg (a : Qc) : (0 <= a * a)%Qc.
Proof.
  unfold Qcle. rewrite Qc_this_mult. change (this 0%Qc) with 0%Q.
  set (x := this a). nra.
Qed.

Lemma nat_q_nonzero (n : nat) : 0 < n -> nat_q n <> 0%Qc.
Proof.
  intros H E. apply nat_q_pos in H. rewrite E, Qccompare_refl in H.
  discriminate.
Qed.

Lemma nat_q_S (n : nat) : nat_q (S n) = (nat_q n + 1)%Qc.
Proof.
  apply Qc_is_canon. unfold nat_q. rewrite Qc_this_plus, !Qc_this_Z.
  change (this 1%Qc) with 1%Q.
  rewrite Nat2Z.inj_succ. unfold Z.succ. rewrite inject_Z_plus. reflexivity.
Qed.

Lemma sum_q_const {A : Type} (c : Qc) (l : list A) :
  sum_q (map (fun _ => c) l) = (nat_q (length l) * c)%Qc.
Proof.
  induction l as [| a l IH]; simpl.
  - rewrite nat_q_0. ring.
  - rewrite IH, nat_q_S. ring.
Qed.

Lemma fmul_Fin0_cases (x : float64) :
  (x * Fin 0%Qc)%float = NaN \/ (x * Fin 0%Qc)%float = Fin 0%Qc.
Proof.
  destruct x as [| | | a]; cbn [fmul]; unfold inf_times;
    try rewrite Qccompare_refl; try (left; reflexivity).
  right. f_equal. ring.
Qed.

Lemma fmul_Fin0_l_cases (y : float64) :
  (Fin 0%Qc * y)%float = NaN \/ (Fin 0%Qc * y)%float = Fin 0%Qc.
Proof.
  destruct y as [| | | a]; cbn [fmul]; unfold inf_times;
    try rewrite Qccompare_refl; try (left; reflexivity).
  right. f_equal. ring.
Qed.

Lemma fsum_zero_cases (l : Series) :
  Forall (fun x => x = NaN \/ x = Fin 0%Qc) l ->
  fsum l = NaN \/ fsum l = Fin 0%Qc.
Proof.
  induction 1 as [| x l Hx _ IH].
  - right. reflexivity.
  - unfold fsum in *. cbn [fold_right].
    destruct Hx as [-> | ->]; [left; reflexivity |].
    destruct IH as [-> | ->]; [left; reflexivity |].
    right. reflexivity.
Qed.

(** Against a benchmark whose returns are all one finite number, the
    covariance of any series is 0 or NaN. *)
Lemma cov_const_benchmark (a b : Series) (c : Qc) :
  Forall (fun y => y = Fin c) (filter notna b) ->
  cov a b = NaN \/ cov a b = Fin 0%Qc.
Proof.
  intro Hb. unfold cov.
  set (valid := filter (fun p => notna (fst p) && notna (snd p))
                       (combine a b)).
  assert (Hsnd : forall p, In p valid -> snd p = Fin c).
  { intros p Hp. unfold valid in Hp. apply filter_In in Hp.
    destruct Hp as [Hin Hn]. apply andb_true_iff in Hn.
    rewrite Forall_forall in Hb. apply Hb. apply filter_In.
    split; [| exact (proj2 Hn)].
    destruct p as [u w]. exact (in_combine_r _ _ _ _ Hin). }
  destruct (length valid <? 1) eqn:E; [left; reflexivity |].
  apply Nat.ltb_ge in E.
  assert (Havg : (fsum (map snd valid) / of_nat (length valid))%float
                 = Fin c).
  { rewrite (map_ext_in snd (fun _ => Fin c) valid Hsnd).
    rewrite <- (map_map (fun _ => c) Fin), fsum_Fin.
    rewrite fdiv_Fin_nat by lia. f_equal.
    rewrite sum_q_const. field. apply nat_q_nonzero. lia. }
  rewrite Havg.
  set (avg_a := (fsum (map fst valid) / of_nat (length valid))%float).
  assert (Hdot :
            fsum (map (fun p => ((fst p - avg_a) * (snd p - Fin c))%float)
                      valid) = NaN
            \/ fsum (map (fun p => ((fst p - avg_a) * (snd p - Fin c))%float)
                         valid) = Fin 0%Qc).
  { apply fsum_zero_cases, Forall_forall. intros y Hy.
    apply in_map_iff in Hy. destruct Hy as [p [<- Hp]].
    rewrite (Hsnd p Hp). cbn [fsub fneg fadd].
    replace (c + - c)%Qc with 0%Qc by ring.
    apply fmul_Fin0_cases. }
  destruct Hdot as [-> | ->]; [left; reflexivity |].
  apply fmul_Fin0_l_cases.
Qed.

Lemma fdiv_by_zero_of_zero_or_nan (x : float64) :
  x = NaN \/ x = Fin 0%Qc -> (x / Fin 0%Qc)%float = NaN.
Proof.
  intros [-> | ->]; [reflexivity |].
  cbn [fdiv]. rewrite Qccompare_refl. reflexivity.
Qed.

(* ================================================================== *)
(** ** Beta                                                             *)
(* ================================================================== *)

Section BetaFacts.

Variable sqrt_q : Qc -> Qc.

(** A run whose cleaned table has the benchmark and at least one trading
    day reaches the metrics table. *)
Lemma compute_metrics_ok (t : PriceTable) (spy_data : Series) :
  benchmark t = ret spy_data -> days t <> [] ->
  compute_metrics sqrt_q t = ret (map (row_of sqrt_q spy_data) (stock_columns t)).
Proof.
  unfold benchmark, stock_columns, compute_metrics. fold (cleaned t).
  intros Hb Hd. rewrite Hb. cbn [bind ret].
  assert (He : existsb (has_label "SPY"%string) (columns (cleaned t)) = true).
  { unfold getitem in Hb.
    destruct (find (has_label "SPY"%string) (columns (cleaned t)))
      as [c |] eqn:E; [| discriminate].
    apply find_some in E. apply existsb_exists. exists c. exact E. }
  unfold drop. rewrite He. cbn [bind ret].
  unfold iloc_last. cbn [index]. 
  assert (Hi : index (cleaned t) = days t) by reflexivity.
  rewrite Hi. destruct (days t) as [| d0 ds]; [congruence |].
  cbn [bind ret columns]. unfold ret. f_equal.
  apply frame_of_rows.
Qed.

(** C5. An asset whose closes are those of the benchmark on every day has,
    whenever the variance of the benchmark's returns is a non-zero number,
    a beta of exactly 1 and the volatility that the script's formula gives
    for the benchmark column. *)
Theorem twin_of_benchmark (t : PriceTable) (m : list MetricsRow) :
  compute_metrics sqrt_q t = ret m ->
  exists spy_data,
    benchmark t = ret spy_data
    /\ Forall2 (fun c r =>
                  Ticker r = label c
                  /\ (values c = spy_data ->
                      forall v,
                        var (pct_change spy_data) = Fin v -> v <> 0%Qc ->
                        Beta r = one
                        /\ Volatility r = volatility_of sqrt_q spy_data))
               (stock_columns t) m.
Proof.
  intro H. apply compute_metrics_inv in H.
  destruct H as [spy_data [Hb [_ ->]]].
  exists spy_data. split; [exact Hb |].
  apply Forall2_map_r, Forall_forall. intros c _.
  split; [reflexivity |]. intros Hc v Hv Hnz.
  cbn [Beta Volatility row_of]. rewrite Hc.
  split; [| reflexivity].
  unfold beta_of. exact (beta_self _ v Hv Hnz).
Qed.

End BetaFacts.

(* ================================================================== *)
(** ** The script on the example inputs                                 *)
(* ================================================================== *)

(** Closes a goal [x = Fin q] between concrete values. *)
Ltac float_eval :=
  vm_compute;
  match goal with
  | |- Fin _ = Fin _ => f_equal; apply Qc_is_canon; vm_compute; reflexivity
  | |- _ => reflexivity
  end.

Example screener_sample :
  map Ticker (screener sample_metrics) = ["F"; "B"; "C"; "E"; "A"]%string.
Proof. vm_compute. reflexivity. Qed.

Example bullish_sample :
  length (filter bullish sample_metrics) = 7
  /\ map Ticker (filter outlier sample_metrics) = ["F"; "G"]%string.
Proof. split; vm_compute; reflexivity. Qed.

Lemma metrics_flat_benchmark :
  map (fun r => (Ticker r, Beta r))
      (metrics_or_empty (compute_metrics sqrt_approx table_flat_benchmark))
  = [("A"%string, NaN)].
Proof. vm_compute. reflexivity. Qed.

Lemma var_flat_benchmark :
  var (pct_change (map to_float (flat 50 60))) = zero.
Proof. float_eval. Qed.

(** C1, counterexample.  On 60 days with a flat benchmark the variance of
    the benchmark's returns is zero, the run completes, and the row of A in
    the metrics table holds NaN as beta. *)
Lemma zero_variance_beta_leaks :
  ~ beta_never_leaks sqrt_approx table_flat_benchmark.
Proof.
  intro H.
  specialize (H (map to_float (flat 50 60))
                (dashboard_or_empty (dashboard sqrt_approx table_flat_benchmark))).
  assert (Hb : benchmark table_flat_benchmark = ret (map to_float (flat 50 60)))
    by (vm_compute; reflexivity).
  assert (Hd : dashboard sqrt_approx table_flat_benchmark
               = ret (dashboard_or_empty
                        (dashboard sqrt_approx table_flat_benchmark)))
    by (vm_compute; reflexivity).
  specialize (H Hb var_flat_benchmark Hd).
  vm_compute in H. inversion H as [| r l Hr Hl]; subst. discriminate Hr.
Qed.

(** C2, counterexample.  On 30 days the run completes and the row of A is in
    the metrics table with NaN as its trend distance. *)
Lemma short_history_carried_as_nan :
  ~ short_history_excluded sqrt_approx table_short.
Proof.
  intro H.
  assert (Hd : dashboard sqrt_approx table_short
               = ret (dashboard_or_empty (dashboard sqrt_approx table_short)))
    by (vm_compute; reflexivity).
  refine (H _ ("A"%string, map to_float (step 100 110 29))
            (row_of sqrt_approx (map to_float (zigzag 30))
                    ("A"%string, map to_float (step 100 110 29)))
            Hd _ _ _ _ _).
  - vm_compute. left. reflexivity.
  - vm_compute. lia.
  - vm_compute. left. reflexivity.
  - reflexivity.
  - vm_compute. reflexivity.
Qed.

(** C4, counterexample.  With the closes 1, 2, 0, 0 the returns series is
    1, -1, NaN; the script's volatility is taken over the two defined
    returns only and is a number, while the sample standard deviation of the
    whole series is NaN. *)
Lemma volatility_skips_undefined_returns :
  ~ volatility_over_all_returns sqrt_approx table_gap.
Proof.
  intro H.
  pose (a := ("A"%string,
              map to_float [price 1; price 2; price 0; price 0]) : Column).
  pose (spy := map to_float [price 5; price 6; price 5; price 7]).
  assert (Hs : stock_columns table_gap = [a]) by (vm_compute; reflexivity).
  assert (Hm : compute_metrics sqrt_approx table_gap
               = ret [row_of sqrt_approx spy a])
    by (vm_compute; reflexivity).
  specialize (H _ Hm). rewrite Hs in H.
  apply Forall2_cons_iff in H. destruct H as [H _].
  assert (Hlen : 2 <= length (values a)) by (vm_compute; lia).
  specialize (H Hlen).
  assert (Hr : sample_std sqrt_approx (returns_series (values a)) = NaN)
    by (vm_compute; reflexivity).
  rewrite Hr in H. cbn [fmul] in H.
  assert (Hv : isnan (Volatility (row_of sqrt_approx spy a)) = false)
    by (vm_compute; reflexivity).
  rewrite H in Hv. discriminate Hv.
Qed.

(** C9, counterexample.  With 50 closes of 0 the last close equals the
    50-day mean, and the trend distance is 0 / 0, NaN, not 0. *)
Lemma trend_of_zero_prices_is_nan :
  ~ trend_sign_exact sqrt_approx table_zero.
Proof.
  intro H.
  pose (a := ("A"%string, map Fin (repeat 0%Qc 50)) : Column).
  pose (spy := map to_float (zigzag 50)).
  assert (Hs : stock_columns table_zero = [a]) by (vm_compute; reflexivity).
  assert (Hd : dashboard sqrt_approx table_zero
               = ret (dashboard_or_empty (dashboard sqrt_approx table_zero)))
    by (vm_compute; reflexivity).
  assert (Hm : metrics (dashboard_or_empty (dashboard sqrt_approx table_zero))
               = [row_of sqrt_approx spy a])
    by (vm_compute; reflexivity).
  specialize (H _ Hd). rewrite Hs, Hm in H.
  apply Forall2_cons_iff in H. destruct H as [H _].
  assert (Hlen : 50 <= length (repeat 0%Qc 50)) by (vm_compute; lia).
  destruct (H (repeat 0%Qc 50) eq_refl Hlen) as [_ [_ Heq]].
  assert (E : last_close (repeat 0%Qc 50) = last_sma (repeat 0%Qc 50))
    by (apply Qc_is_canon; vm_compute; reflexivity).
  specialize (Heq E).
  assert (Hn : isnan (Distance_SMA (row_of sqrt_approx spy a)) = true)
    by (vm_compute; reflexivity).
  rewrite Heq in Hn. discriminate Hn.
Qed.

(** C3, on the 60-day table, whose one stock column has 60 values. *)
Lemma trend_distance_formula_witness :
  Forall (fun c => 50 <= length (values c)) (stock_columns table_rising)
  /\ Forall2 (fun c r =>
                Ticker r = label c
                /\ exists prices,
                    values c = map Fin prices
                    /\ (50 <= length prices ->
                        Distance_SMA r = trend_distance_pct prices
                        /\ last_sma prices
                           = (sum_q (lastn 50 prices) / nat_q 50)%Qc
                        /\ length (lastn 50 prices) = 50))
             (stock_columns table_rising)
             (metrics_or_empty (compute_metrics sqrt_approx table_rising)).
Proof.
  split.
  - vm_compute. repeat constructor.
  - apply (trend_distance_formula sqrt_approx table_rising).
    vm_compute. reflexivity.
Defined.

(** C4, on the 60-day table, whose one stock column has 60 non-zero closes
    and so no undefined return. *)
Lemma volatility_formula_witness :
  Forall (fun c => 2 <= length (values c)
                   /\ forallb notna (returns_series (values c)) = true)
         (stock_columns table_rising)
  /\ Forall2 (fun c r =>
                Ticker r = label c
                /\ (2 <= length (values c) ->
                    ~ In NaN (returns_series (values c)) ->
                    Volatility r
                    = (sample_std sqrt_approx (returns_series (values c))
                       * sqrt_252 sqrt_approx * of_Z 100)%float
                    /\ length (returns_series (values c))
                       = length (values c) - 1))
             (stock_columns table_rising)
             (metrics_or_empty (compute_metrics sqrt_approx table_rising)).
Proof.
  split.
  - vm_compute. repeat constructor.
  - apply (volatility_formula sqrt_approx table_rising).
    vm_compute. reflexivity.
Defined.

(** C5, on the table in which B equals the benchmark, whose returns have the
    variance 123169501 / 198996007500. *)
Lemma twin_of_benchmark_witness :
  (Forall (fun c => Some (values c)
                    = match benchmark table_twin with
                      | inr spy_data => Some spy_data
                      | inl _ => None
                      end)
          (stock_columns table_twin)
   /\ exists v,
       var (pct_change (map to_float
                            [price 100; price 102; price 101; price 105]))
       = Fin v
       /\ this v = (123169501 # 198996007500)%Q)
  /\ exists spy_data,
      benchmark table_twin = ret spy_data
      /\ Forall2 (fun c r =>
                    Ticker r = label c
                    /\ (values c = spy_data ->
                        forall v,
                          var (pct_change spy_data) = Fin v -> v <> 0%Qc ->
                          Beta r = one
                          /\ Volatility r
                             = volatility_of sqrt_approx spy_data))
                 (stock_columns table_twin)
                 (metrics_or_empty (compute_metrics sqrt_approx table_twin)).
Proof.
  split.
  - split.
    + vm_compute. repeat constructor.
    + eexists. split; vm_compute; reflexivity.
  - apply (twin_of_benchmark sqrt_approx table_twin).
    vm_compute. reflexivity.
Defined.

(** C8, on the table whose benchmark misses a day. *)
Lemma missing_benchmark_aborts_witness :
  compute_metrics sqrt_approx table_no_benchmark = raise (KeyError "SPY")
  /\ dashboard sqrt_approx table_no_benchmark = raise (KeyError "SPY").
Proof.
  apply (missing_benchmark_aborts sqrt_approx table_no_benchmark).
  vm_compute. intros [H | []]. discriminate H.
Defined.


(* ================================================================== *)
(** ** How a run ends                                                   *)
(* ================================================================== *)

Lemma getitem_present (df : DataFrame) (key : string) (s : Series) :
  getitem df key = ret s -> In key (map label (columns df)).
Proof.
  unfold getitem.
  destruct (find (has_label key) (columns df)) as [c |] eqn:E;
    [| discriminate].
  intros _. apply find_some in E. destruct E as [Hin Hl].
  unfold has_label in Hl. apply String.eqb_eq in Hl. subst key.
  apply in_map. exact Hin.
Qed.

Lemma getitem_found (df : DataFrame) (key : string) :
  In key (map label (columns df)) -> exists s, getitem df key = ret s.
Proof.
  intro H. apply in_map_iff in H. destruct H as [c [Hl Hc]].
  unfold getitem.
  destruct (find (has_label key) (columns df)) as [c' |] eqn:E.
  - exists (values c'). reflexivity.
  - exfalso. pose proof (find_none _ _ E c Hc) as Hn.
    unfold has_label in Hn. rewrite Hl, String.eqb_refl in Hn.
    discriminate Hn.
Qed.

Lemma getitem_error (df : DataFrame) (key : string) (e : exn) :
  getitem df key = raise e ->
  e = KeyError key /\ ~ In key (map label (columns df)).
Proof.
  intro H. split.
  - unfold getitem in H.
    destruct (find (has_label key) (columns df)); [discriminate |].
    unfold raise in H. injection H as <-. reflexivity.
  - intro Hin. destruct (getitem_found df key Hin) as [s Hs].
    rewrite Hs in H. discriminate H.
Qed.

Section Outcome.

Variable sqrt_q : Qc -> Qc.

(** The run in one line: the lookup of the benchmark decides whether it
    raises KeyError, the number of trading days whether it raises
    IndexError, and otherwise there is one row per stock column. *)
Lemma compute_metrics_char (t : PriceTable) :
  compute_metrics sqrt_q t
  = match benchmark t with
    | inl e => inl e
    | inr spy_data =>
        match days t with
        | [] => raise IndexError
        | _ :: _ => ret (map (row_of sqrt_q spy_data) (stock_columns t))
        end
    end.
Proof.
  destruct (benchmark t) as [e | spy_data] eqn:Eb.
  - unfold compute_metrics. fold (cleaned t).
    unfold benchmark in Eb. rewrite Eb. reflexivity.
  - destruct (days t) as [| d0 ds] eqn:Ed.
    + assert (He : existsb (has_label "SPY"%string) (columns (cleaned t))
                   = true).
      { unfold benchmark, getitem in Eb.
        destruct (find (has_label "SPY"%string) (columns (cleaned t)))
          as [c |] eqn:E; [| discriminate].
        apply find_some in E. apply existsb_exists. exists c. exact E. }
      unfold compute_metrics. fold (cleaned t).
      unfold benchmark in Eb. rewrite Eb. cbn [bind].
      unfold drop. rewrite He. cbn [bind ret].
      unfold iloc_last. cbn [index].
      change (index (cleaned t)) with (days t). rewrite Ed. reflexivity.
    + apply compute_metrics_ok; [exact Eb |]. rewrite Ed. discriminate.
Qed.

End Outcome.

Lemma Subseq_map {A B : Type} (f : A -> B) (l1 l2 : list A) :
  Subseq l1 l2 -> Subseq (map f l1) (map f l2).
Proof.
  induction 1; simpl; constructor; assumption.
Qed.

Lemma Subseq_trans {A : Type} (l1 l2 l3 : list A) :
  Subseq l1 l2 -> Subseq l2 l3 -> Subseq l1 l3.
Proof.
  intros H12 H23. revert l1 H12.
  induction H23 as [| x l2 l3 _ IH | x l2 l3 _ IH]; intros l1 H12.
  - exact H12.
  - inversion H12; subst.
    + constructor. apply IH. assumption.
    + apply Subseq_skip. apply IH. assumption.
  - apply Subseq_skip. apply IH. exact H12.
Qed.

Lemma Subseq_NoDup {A : Type} (l1 l2 : list A) :
  Subseq l1 l2 -> NoDup l2 -> NoDup l1.
Proof.
  induction 1 as [| x l1 l2 Hs IH | x l1 l2 Hs IH]; intro Hn.
  - constructor.
  - inversion Hn; subst. constructor; [| apply IH; assumption].
    intro Hin. apply (Subseq_In _ _ Hs) in Hin. contradiction.
  - inversion Hn; subst. apply IH. assumption.
Qed.

Lemma stock_columns_Subseq (t : PriceTable) :
  Subseq (stock_columns t) (columns (close_frame t)).
Proof.
  unfold stock_columns, cleaned, dropna. cbn [columns].
  eapply Subseq_trans; apply filter_Subseq.
Qed.

Lemma stock_labels_Subseq (t : PriceTable) :
  Subseq (map label (stock_columns t)) (map fst (closes t)).
Proof.
  replace (map fst (closes t)) with (map label (columns (close_frame t))).
  - apply Subseq_map, stock_columns_Subseq.
  - unfold close_frame. cbn [columns]. rewrite map_map. reflexivity.
Qed.

Lemma stock_labels_not_benchmark (t : PriceTable) :
  ~ In "SPY"%string (map label (stock_columns t)).
Proof.
  intro H. apply in_map_iff in H. destruct H as [c [Hl Hc]].
  unfold stock_columns in Hc. apply filter_In in Hc. destruct Hc as [_ Hn].
  unfold has_label in Hn. rewrite Hl, String.eqb_refl in Hn. discriminate Hn.
Qed.

Lemma stock_column_raw (t : PriceTable) (c : Column) :
  In c (stock_columns t) ->
  exists raw, In raw (closes t) /\ c = (fst raw, map to_float (snd raw)).
Proof.
  intro H. apply (Subseq_In _ _ (stock_columns_Subseq t)) in H.
  unfold close_frame in H. cbn [columns] in H.
  apply in_map_iff in H. destruct H as [raw [<- Hin]].
  exists raw. split; [exact Hin | reflexivity].
Qed.

Lemma map_Ticker_rows (sqrt_q : Qc -> Qc) (spy_data : Series)
      (cols : list Column) :
  map Ticker (map (row_of sqrt_q spy_data) cols) = map label cols.
Proof.
  rewrite map_map. reflexivity.
Qed.

Section OutcomeFacts.

Variable sqrt_q : Qc -> Qc.

(** X1. The metrics step of the script (the cleaning, the split and the
    three statistics, up to the metrics table) ends with KeyError 'SPY'
    exactly when the cleaned table has no benchmark column, with IndexError
    exactly when it has one but there is no trading day, and with a metrics
    table exactly when it has one and there is at least one trading day. *)
Theorem run_outcomes (t : PriceTable) :
  (compute_metrics sqrt_q t = raise (KeyError "SPY") <->
   ~ In "SPY"%string (map label (columns (cleaned t))))
  /\ (compute_metrics sqrt_q t = raise IndexError <->
      In "SPY"%string (map label (columns (cleaned t))) /\ days t = [])
  /\ ((exists m, compute_metrics sqrt_q t = ret m) <->
      In "SPY"%string (map label (columns (cleaned t))) /\ days t <> []).
Proof.
  split; [| split];
    rewrite ?compute_metrics_char; unfold benchmark, ret, raise;
    destruct (getitem (cleaned t) "SPY") as [e | spy_data] eqn:Eb.
  - destruct (getitem_error _ _ _ Eb) as [-> Hno].
    split; [intros _; exact Hno | reflexivity].
  - pose proof (getitem_present _ _ _ Eb) as Hin.
    split; [| intro H; contradiction].
    destruct (days t); intro H; discriminate H.
  - destruct (getitem_error _ _ _ Eb) as [-> Hno].
    split; [intro H; discriminate H | intros [Hin _]; contradiction].
  - pose proof (getitem_present _ _ _ Eb) as Hin.
    destruct (days t) as [| d0 ds].
    + split; [intros _; split; [exact Hin | reflexivity] | reflexivity].
    + split; [intro H; discriminate H | intros [_ H]; discriminate H].
  - destruct (getitem_error _ _ _ Eb) as [-> Hno].
    split; [intros [m H]; discriminate H | intros [Hin _]; contradiction].
  - pose proof (getitem_present _ _ _ Eb) as Hin.
    destruct (days t) as [| d0 ds].
    + split; [intros [m H]; discriminate H | intros [_ H]; congruence].
    + split; [intros _; split; [exact Hin | discriminate] |].
      intros _. eexists. reflexivity.
Qed.

(** X2. The metrics table has one row per stock column of the cleaned
    table, in column order and under the column's label: its tickers are
    downloaded symbols in download order, 'SPY' is never one of them, and
    they are distinct when the downloaded symbols are. *)
Theorem metrics_table_shape (t : PriceTable) (m : list MetricsRow) :
  compute_metrics sqrt_q t = ret m ->
  map Ticker m = map label (stock_columns t)
  /\ length m = length (stock_columns t)
  /\ Subseq (map Ticker m) (map fst (closes t))
  /\ ~ In "SPY"%string (map Ticker m)
  /\ (NoDup (map fst (closes t)) -> NoDup (map Ticker m)).
Proof.
  intro H. apply compute_metrics_inv in H.
  destruct H as [spy_data [_ [_ ->]]].
  rewrite map_Ticker_rows, length_map.
  split; [reflexivity |]. split; [reflexivity |].
  split; [apply stock_labels_Subseq |].
  split; [apply stock_labels_not_benchmark |].
  apply Subseq_NoDup, stock_labels_Subseq.
Qed.

End OutcomeFacts.

(* ================================================================== *)
(** ** Splitting off the benchmark                                      *)
(* ================================================================== *)

Lemma find_filter_other (key key' : string) (cols : list Column) :
  key' <> key ->
  find (has_label key') (filter (fun c => negb (has_label key c)) cols)
  = find (has_label key') cols.
Proof.
  intro Hne. induction cols as [| c cols IH]; [reflexivity |].
  cbn [filter find].
  destruct (has_label key c) eqn:E1; destruct (has_label key' c) eqn:E2;
    cbn [negb find]; rewrite ?E2; try exact IH; try reflexivity.
  exfalso. unfold has_label in E1, E2.
  apply String.eqb_eq in E1. apply String.eqb_eq in E2. congruence.
Qed.

Lemma find_filter_self (key : string) (cols : list Column) :
  find (has_label key) (filter (fun c => negb (has_label key c)) cols) = None.
Proof.
  induction cols as [| c cols IH]; [reflexivity |].
  cbn [filter]. destruct (has_label key c) eqn:E; cbn [negb]; [exact IH |].
  cbn [find]. rewrite E. exact IH.
Qed.

(** X3. [drop] and the lookup agree on which labels exist: dropping a label
    raises KeyError exactly when looking it up does.  After a drop the
    label is gone (looking it up raises KeyError), every other label gives
    the column it gave before, and the index and the order of the remaining
    columns are unchanged. *)
Theorem drop_then_getitem (df : DataFrame) (key : string) :
  (drop df key = raise (KeyError key) <->
   getitem df key = raise (KeyError key))
  /\ (forall e, drop df key = raise e -> e = KeyError key)
  /\ (forall df',
         drop df key = ret df' ->
         getitem df' key = raise (KeyError key)
         /\ (forall key', key' <> key -> getitem df' key' = getitem df key')
         /\ index df' = index df
         /\ Subseq (columns df') (columns df)).
Proof.
  assert (He : existsb (has_label key) (columns df) = true <->
               exists s, getitem df key = ret s).
  { split.
    - intro H. apply existsb_exists in H. destruct H as [c [Hc Hl]].
      apply getitem_found. unfold has_label in Hl.
      apply String.eqb_eq in Hl. subst key. apply in_map. exact Hc.
    - intros [s H]. apply getitem_present in H.
      apply in_map_iff in H. destruct H as [c [Hl Hc]].
      apply existsb_exists. exists c. split; [exact Hc |].
      unfold has_label. rewrite Hl. apply String.eqb_refl. }
  unfold drop.
  destruct (existsb (has_label key) (columns df)) eqn:E.
  - destruct (proj1 He eq_refl) as [s Hs].
    split; [| split].
    + rewrite Hs. split; intro H; discriminate H.
    + intros e H. discriminate H.
    + intros df' H. unfold ret in H. injection H as <-.
      split; [| split; [| split]].
      * unfold getitem. cbn [columns]. rewrite find_filter_self. reflexivity.
      * intros key' Hne. unfold getitem. cbn [columns].
        rewrite (find_filter_other key key' _ Hne). reflexivity.
      * reflexivity.
      * cbn [columns]. apply filter_Subseq.
  - split; [| split].
    + split; [| reflexivity]. intros _.
      destruct (getitem df key) as [e | s] eqn:Eg.
      * destruct (getitem_error _ _ _ Eg) as [-> _]. reflexivity.
      * exfalso. assert (Ht : false = true)
          by (apply He; exists s; reflexivity).
        discriminate Ht.
    + intros e H. unfold raise in H. injection H as <-. reflexivity.
    + intros df' H. discriminate H.
Qed.

(* ================================================================== *)
(** ** Breadth, colours and labels                                      *)
(* ================================================================== *)

Lemma filter_length_impl {A : Type} (f g : A -> bool) (l : list A) :
  (forall x, f x = true -> g x = true) ->
  length (filter f l) <= length (filter g l).
Proof.
  intro H. induction l as [| a l IH]; simpl; [lia |].
  destruct (f a) eqn:Ef.
  - rewrite (H a Ef). simpl. lia.
  - destruct (g a); simpl; lia.
Qed.

Lemma flt_trans (x y z : float64) :
  flt x y = true -> flt y z = true -> flt x z = true.
Proof.
  destruct x as [| | | a], y as [| | | b], z as [| | | c]; cbn [flt];
    try congruence.
  intros H1 H2. apply flt_Fin. apply (Qclt_trans _ b).
  - apply flt_Fin. exact H1.
  - apply flt_Fin. exact H2.
Qed.

Lemma candidate_bullish (r : MetricsRow) :
  candidate (of_Z 5) (of_Z 25) r = true -> bullish r = true.
Proof.
  unfold candidate, bullish, fgt. intro H.
  apply andb_true_iff in H. destruct H as [H _].
  apply (flt_trans zero (of_Z 5)); [reflexivity | exact H].
Qed.

Lemma dashboard_labelled (sqrt_q : Qc -> Qc) (t : PriceTable) (d : Dashboard) :
  dashboard sqrt_q t = ret d ->
  labelled d = map Ticker (filter outlier (metrics d)).
Proof.
  unfold dashboard.
  destruct (compute_metrics sqrt_q t) as [e | m]; simpl; [discriminate |].
  intro H. unfold ret in H. injection H as <-. reflexivity.
Qed.

Lemma fabs_gt (x : float64) (k : Qc) :
  (0 <= k)%Qc ->
  fgt (fabs x) (Fin k) = true <->
  fgt x (Fin k) = true \/ flt x (Fin (- k)%Qc) = true.
Proof.
  intro Hk. unfold fgt. destruct x as [| | | q]; cbn [fabs flt].
  - split; [discriminate | intros [H | H]; discriminate H].
  - split; [left; reflexivity | reflexivity].
  - split; [right; reflexivity | reflexivity].
  - destruct (q ?= 0)%Qc eqn:E.
    + apply Qceq_alt in E. subst q. split; [intro H; left; exact H |].
      intros [H | H]; [exact H | exfalso].
      apply flt_Fin in H. apply Qcopp_le_compat in Hk.
      change (- 0)%Qc with 0%Qc in Hk.
      exact (Qcle_not_lt _ _ Hk H).
    + apply Qclt_alt in E. split.
      * intro H. right. apply flt_Fin. apply flt_Fin in H.
        apply Qclt_minus_iff. apply Qclt_minus_iff in H.
        replace (- k + - q)%Qc with (- q + - k)%Qc by ring. exact H.
      * intros [H | H].
        -- exfalso. apply flt_Fin in H.
           exact (Qclt_not_le _ _ (Qclt_trans _ _ _ H E) Hk).
        -- apply flt_Fin. apply flt_Fin in H.
           apply Qclt_minus_iff. apply Qclt_minus_iff in H.
           replace (- q + - k)%Qc with (- k + - q)%Qc by ring. exact H.
    + apply Qcgt_alt in E. split; [intro H; left; exact H |].
      intros [H | H]; [exact H | exfalso].
      apply flt_Fin in H. apply Qcopp_le_compat in Hk.
      change (- 0)%Qc with 0%Qc in Hk.
      exact (Qclt_not_le _ _ (Qclt_trans _ _ _ E H) Hk).
Qed.

Lemma filter_length_split {A : Type} (f : A -> bool) (l : list A) :
  length (filter f l) + length (filter (fun x => negb (f x)) l) = length l.
Proof.
  induction l as [| a l IH]; simpl; [reflexivity |].
  destruct (f a); simpl; lia.
Qed.

Lemma StronglySorted_app_inv {A : Type} (R : A -> A -> Prop)
      (l1 l2 : list A) :
  StronglySorted R (l1 ++ l2) ->
  forall x y, In x l1 -> In y l2 -> R x y.
Proof.
  induction l1 as [| a l1 IH]; simpl; intros Hs x y Hx Hy; [contradiction |].
  inversion Hs as [| ? ? Hs' Ha]; subst.
  destruct Hx as [-> | Hx].
  - rewrite Forall_forall in Ha. apply Ha. apply in_or_app. right. exact Hy.
  - exact (IH Hs' x y Hx Hy).
Qed.

Lemma candidates_keyed (floor ceiling : float64) (m : list MetricsRow) :
  Forall keyed (filter (candidate floor ceiling) m).
Proof.
  apply Forall_forall. intros x Hx. apply filter_In in Hx.
  exact (candidate_keyed _ _ _ (proj2 Hx)).
Qed.

Lemma screener_with_sorted (floor ceiling : float64) (m : list MetricsRow) :
  screener_with floor ceiling m
  = firstn 5 (sort_desc (filter (candidate floor ceiling) m)).
Proof.
  unfold screener_with.
  rewrite (sort_values_desc_keyed _ (candidates_keyed floor ceiling m)).
  reflexivity.
Qed.

(** X9. The screener prints the top of the list: it returns five rows when
    at least five pass the two tests and all of them otherwise, and a
    passing row that is left out has a trend distance no greater than that
    of every row returned. *)
Theorem screener_keeps_the_top (floor ceiling : float64)
        (m : list MetricsRow) :
  length (screener_with floor ceiling m)
  = Nat.min 5 (length (filter (candidate floor ceiling) m))
  /\ (forall r,
         In r (filter (candidate floor ceiling) m) ->
         ~ In r (screener_with floor ceiling m) ->
         Forall (fun x => fle (Distance_SMA r) (Distance_SMA x) = true)
                (screener_with floor ceiling m)).
Proof.
  rewrite screener_with_sorted.
  set (hits := filter (candidate floor ceiling) m).
  split.
  - rewrite length_firstn.
    rewrite (Permutation_length (sort_desc_perm hits)). reflexivity.
  - intros r Hr Hout. apply Forall_forall. intros x Hx.
    assert (Hs : StronglySorted desc
                   (firstn 5 (sort_desc hits) ++ skipn 5 (sort_desc hits))).
    { rewrite firstn_skipn. apply sort_desc_sorted.
      apply candidates_keyed. }
    apply (StronglySorted_app_inv desc _ _ Hs x r Hx).
    apply (Permutation_in _ (Permutation_sym (sort_desc_perm hits))) in Hr.
    rewrite <- (firstn_skipn 5 (sort_desc hits)) in Hr.
    apply in_app_or in Hr. destruct Hr as [Hr | Hr]; [contradiction | exact Hr].
Qed.

Section BreadthFacts.

Variable sqrt_q : Qc -> Qc.

(** X6. The two counts of the pie chart split the metrics table: bullish
    counts the rows whose trend distance is above 0, bearish every other
    row (a trend distance of 0, below 0 or NaN), and together they are as
    many as there are stock columns. *)
Theorem breadth_partition (t : PriceTable) (d : Dashboard) :
  dashboard sqrt_q t = ret d ->
  bullish_count d + bearish_count d = length (stock_columns t)
  /\ bullish_count d
     = length (filter (fun r => fgt (Distance_SMA r) zero) (metrics d))
  /\ bearish_count d
     = length (filter (fun r => negb (fgt (Distance_SMA r) zero)) (metrics d)).
Proof.
  intro H. apply dashboard_inv in H.
  destruct H as [Hm [_ [Hb Hr]]].
  apply compute_metrics_inv in Hm. destruct Hm as [spy_data [_ [_ Hm]]].
  pose proof (filter_length_split bullish (metrics d)) as Hs.
  assert (Hl : length (metrics d) = length (stock_columns t))
    by (rewrite Hm; apply length_map).
  fold bullish. unfold bullish in Hs at 2.
  rewrite Hr, Hb. repeat split; lia.
Qed.

(** X7. When every downloaded column has fewer than 50 rows, a run that
    reaches the metrics table counts no asset as bullish and every asset as
    bearish, and prints no candidate. *)
Theorem short_table_is_all_bearish (t : PriceTable) (d : Dashboard) :
  Forall (fun c => length (snd c) < 50) (closes t) ->
  dashboard sqrt_q t = ret d ->
  bullish_count d = 0
  /\ bearish_count d = length (stock_columns t)
  /\ printed d = [].
Proof.
  intros Hshort H. apply dashboard_inv in H.
  destruct H as [Hm [Hp [Hb Hr]]].
  apply compute_metrics_inv in Hm. destruct Hm as [spy_data [_ [_ Hm]]].
  assert (Hnan : Forall (fun r => Distance_SMA r = NaN) (metrics d)).
  { rewrite Hm. apply Forall_forall. intros r Hr'.
    apply in_map_iff in Hr'. destruct Hr' as [c [<- Hc]].
    cbn [Distance_SMA row_of]. apply trend_of_short.
    destruct (stock_column_raw t c Hc) as [raw [Hraw ->]].
    cbn [values snd]. rewrite length_map.
    rewrite Forall_forall in Hshort. exact (Hshort raw Hraw). }
  assert (Hnb : filter bullish (metrics d) = []).
  { apply filter_none. eapply Forall_impl; [| exact Hnan].
    intros r Hr'. unfold bullish. rewrite Hr'. reflexivity. }
  assert (Hnc : filter (candidate (of_Z 5) (of_Z 25)) (metrics d) = []).
  { apply filter_none. eapply Forall_impl; [| exact Hnan].
    intros r Hr'. unfold candidate. rewrite Hr'. reflexivity. }
  rewrite Hnb in Hb. cbn [length] in Hb.
  split; [exact Hb |]. split.
  - rewrite Hr, Hb, Hm, length_map. lia.
  - rewrite Hp. unfold screener, screener_with. rewrite Hnc. reflexivity.
Qed.

(** X8. Every printed candidate is a row of the metrics table that the pie
    chart counts as bullish, so there are at most as many candidates as
    bullish assets, and never more than five. *)
Theorem printed_are_bullish (t : PriceTable) (d : Dashboard) :
  dashboard sqrt_q t = ret d ->
  Forall (fun r => In r (metrics d) /\ bullish r = true) (printed d)
  /\ length (printed d) <= bullish_count d
  /\ length (printed d) <= 5.
Proof.
  intro H. apply dashboard_inv in H. destruct H as [_ [Hp [Hb _]]].
  rewrite Hp, Hb. unfold screener. split; [| split].
  - apply Forall_forall. intros r Hr. apply screener_with_In in Hr.
    destruct Hr as [Hin Hc]. split; [exact Hin |].
    apply candidate_bullish. exact Hc.
  - rewrite screener_with_sorted, length_firstn.
    rewrite (Permutation_length (sort_desc_perm _)).
    eapply Nat.le_trans; [apply Nat.le_min_r |].
    apply filter_length_impl. exact candidate_bullish.
  - rewrite screener_with_sorted. apply firstn_le_length.
Qed.

(** X15. The risk map colours one marker per row of the metrics table, and
    it colours a marker green exactly where the pie chart counts the row as
    bullish: there are as many green markers as bullish assets and as many
    red ones as bearish assets. *)
Theorem marker_colors_match_breadth (t : PriceTable) (d : Dashboard) :
  dashboard sqrt_q t = ret d ->
  Forall2 (fun r c => (c = green <-> bullish r = true)
                      /\ (c = red <-> bullish r = false))
          (metrics d) (marker_colors (metrics d))
  /\ length (filter (String.eqb green) (marker_colors (metrics d)))
     = bullish_count d
  /\ length (filter (String.eqb red) (marker_colors (metrics d)))
     = bearish_count d.
Proof.
  intro H. apply dashboard_inv in H. destruct H as [_ [_ [Hb Hr]]].
  pose proof (filter_length_split bullish (metrics d)) as Hs.
  assert (Hg : forall m,
             length (filter (String.eqb green) (marker_colors m))
             = length (filter bullish m)
             /\ length (filter (String.eqb red) (marker_colors m))
                = length (filter (fun r => negb (bullish r)) m)).
  { induction m as [| r m [IH1 IH2]]; [split; reflexivity |].
    unfold marker_colors in *. cbn [map filter].
    fold (bullish r). destruct (bullish r); cbn [negb];
      change (String.eqb green green) with true;
      change (String.eqb red red) with true;
      change (String.eqb green red) with false;
      change (String.eqb red green) with false;
      cbn [length]; rewrite IH1, IH2; split; reflexivity. }
  destruct (Hg (metrics d)) as [H1 H2].
  split; [| split].
  - unfold marker_colors. rewrite map_map.
    apply Forall2_map_r, Forall_forall. intros r _.
    fold (bullish r). destruct (bullish r); split; split; intro E;
      try reflexivity; try discriminate E.
  - rewrite H1, Hb. reflexivity.
  - rewrite H2, Hr, Hb. lia.
Qed.

(** X16. The labels of the risk map are tickers of the metrics table, in
    table order and never 'SPY'; a ticker is labelled exactly when one of
    its rows has a trend distance above 15 or below -15, or a beta above
    1.5.  (A NaN passes none of the three tests.) *)
Theorem labelled_outliers (t : PriceTable) (d : Dashboard) :
  dashboard sqrt_q t = ret d ->
  Subseq (labelled d) (map label (stock_columns t))
  /\ ~ In "SPY"%string (labelled d)
  /\ (forall tk,
         In tk (labelled d) <->
         exists r,
           In r (metrics d) /\ Ticker r = tk
           /\ (fgt (Distance_SMA r) (of_Z 15) = true
               \/ flt (Distance_SMA r) (of_Z (-15)) = true
               \/ fgt (Beta r) (Fin (Q2Qc (3 # 2))) = true)).
Proof.
  intro H. pose proof (dashboard_labelled _ _ _ H) as Hl.
  apply dashboard_inv in H. destruct H as [Hm _].
  apply compute_metrics_inv in Hm. destruct Hm as [spy_data [_ [_ Hm]]].
  assert (Hsub : Subseq (labelled d) (map label (stock_columns t))).
  { rewrite Hl. rewrite <- (map_Ticker_rows sqrt_q spy_data), <- Hm.
    apply Subseq_map, filter_Subseq. }
  assert (Hout : forall r,
             outlier r = true <->
             (fgt (Distance_SMA r) (of_Z 15) = true
              \/ flt (Distance_SMA r) (of_Z (-15)) = true
              \/ fgt (Beta r) (Fin (Q2Qc (3 # 2))) = true)).
  { intro r. unfold outlier. rewrite orb_true_iff.
    assert (Hk : (0 <= Q2Qc (inject_Z 15))%Qc)
      by (unfold Qcle, Qle; vm_compute; discriminate).
    unfold of_Z. rewrite (fabs_gt _ _ Hk).
    assert (E : Q2Qc (inject_Z (-15)) = (- Q2Qc (inject_Z 15))%Qc)
      by (apply Qc_is_canon; reflexivity).
    rewrite E. tauto. }
  split; [exact Hsub |]. split.
  - intro Hin. apply (Subseq_In _ _ Hsub) in Hin.
    exact (stock_labels_not_benchmark t Hin).
  - intro tk. rewrite Hl. rewrite in_map_iff. split.
    + intros [r [Ht Hr]]. apply filter_In in Hr. destruct Hr as [Hr Ho].
      exists r. split; [exact Hr |]. split; [exact Ht |].
      apply Hout. exact Ho.
    + intros [r [Hr [Ht Ho]]]. exists r. split; [exact Ht |].
      apply filter_In. split; [exact Hr |]. apply Hout. exact Ho.
Qed.

End BreadthFacts.

(* ================================================================== *)
(** ** Daily returns and the rolling mean, day by day                   *)
(* ================================================================== *)

Lemma Qccompare_nonzero (q : Qc) : q <> 0%Qc -> (q ?= 0)%Qc <> Eq.
Proof.
  intros H E. apply H. apply Qceq_alt. exact E.
Qed.

Lemma fdiv_Fin_nonzero (p q : Qc) :
  q <> 0%Qc -> (Fin p / Fin q)%float = Fin (p / q)%Qc.
Proof.
  intro H. cbn [fdiv]. pose proof (Qccompare_nonzero q H) as Hc.
  destruct (q ?= 0)%Qc; [contradiction | reflexivity | reflexivity].
Qed.

Lemma returns_series_Fin (qs : list Qc) :
  Forall (fun q => q <> 0%Qc) qs ->
  returns_series (map Fin qs) = map Fin (returns_q qs).
Proof.
  induction 1 as [| prev rest Hprev _ IH]; [reflexivity |].
  destruct rest as [| p rest']; [reflexivity |].
  change (returns_series (map Fin (prev :: p :: rest')))
    with ((Fin p / Fin prev - one)%float
            :: returns_series (map Fin (p :: rest'))).
  rewrite IH, (fdiv_Fin_nonzero p prev Hprev). reflexivity.
Qed.

Lemma length_pct_change (s : Series) : length (pct_change s) = length s.
Proof.
  unfold pct_change. rewrite length_map, length_combine.
  destruct s as [| x s']; [reflexivity |].
  unfold shift1. cbn [length].
  assert (L : length (removelast (x :: s')) = length s').
  { clear. revert x. induction s' as [| y s' IH]; intro x; [reflexivity |].
    change (removelast (x :: y :: s')) with (x :: removelast (y :: s')).
    cbn [length]. rewrite IH. reflexivity. }
  rewrite L. lia.
Qed.

(** X4. The daily returns of a column of non-zero closes have one entry per
    day: NaN on the first day and then, day by day, the finite number
    close / previous close - 1. *)
Theorem daily_returns_of_prices (qs : list Qc) :
  qs <> [] ->
  Forall (fun q => q <> 0%Qc) qs ->
  pct_change (map Fin qs) = NaN :: map Fin (returns_q qs)
  /\ length (pct_change (map Fin qs)) = length qs
  /\ length (returns_q qs) = length qs - 1.
Proof.
  intros Hne Hnz.
  assert (E : pct_change (map Fin qs) = NaN :: map Fin (returns_q qs)).
  { rewrite pct_change_returns by (destruct qs; [congruence | discriminate]).
    rewrite (returns_series_Fin qs Hnz). reflexivity. }
  split; [exact E |].
  split; [rewrite length_pct_change; apply length_map |].
  pose proof (length_pct_change (map Fin qs)) as L.
  rewrite E in L. cbn [length] in L. rewrite !length_map in L. lia.
Qed.

Lemma nth_map_seq {A : Type} (f : nat -> A) (n i : nat) (d : A) :
  i < n -> nth i (map f (seq 0 n)) d = f i.
Proof.
  intro H. rewrite (nth_indep _ d (f 0)) by (rewrite length_map, length_seq; exact H).
  rewrite (map_nth f (seq 0 n) 0 i), seq_nth by exact H. reflexivity.
Qed.

(** X5. The rolling mean of a column of closes has one entry per day: NaN
    on each of the first [w - 1] days, and from then on the arithmetic mean
    of the [w] closes ending at that day. *)
Theorem rolling_mean_by_day (w : nat) (qs : list Qc) (i : nat) :
  0 < w ->
  i < length qs ->
  length (rolling_mean w (map Fin qs)) = length qs
  /\ nth i (rolling_mean w (map Fin qs)) NaN
     = (if S i <? w then NaN
        else Fin (mean_q (skipn (S i - w) (firstn (S i) qs))))
  /\ (w <= S i -> length (skipn (S i - w) (firstn (S i) qs)) = w).
Proof.
  intros Hw Hi.
  assert (Hlen : length (skipn (S i - w) (firstn (S i) qs))
                 = S i - (S i - w)).
  { rewrite length_skipn, length_firstn. lia. }
  split; [| split].
  - unfold rolling_mean. rewrite length_map, length_seq. apply length_map.
  - unfold rolling_mean.
    rewrite nth_map_seq by (rewrite length_map; exact Hi).
    rewrite firstn_map, skipn_map.
    destruct (S i <? w) eqn:E.
    + apply Nat.ltb_lt in E. apply window_mean_short.
      rewrite length_map, Hlen. lia.
    + apply Nat.ltb_ge in E. apply window_mean_full; [exact Hw |].
      rewrite Hlen. lia.
  - intro H. rewrite Hlen. lia.
Qed.

(* ================================================================== *)
(** ** Too few days for a variance                                      *)
(* ================================================================== *)

Lemma valid_pairs_le (a b : Series) :
  length (filter (fun p => notna (fst p) && notna (snd p)) (combine a b))
  <= length (filter notna a).
Proof.
  revert b. induction a as [| x a IH]; intro b; [simpl; lia |].
  destruct b as [| y b]; [simpl; lia |].
  cbn [combine filter fst snd]. specialize (IH b).
  destruct (notna x); cbn [andb].
  - destruct (notna y); cbn [length]; lia.
  - exact IH.
Qed.

Lemma valid_returns_le (s : Series) :
  length (filter notna (pct_change s)) <= length s - 1.
Proof.
  destruct s as [| x s']; [simpl; lia |].
  rewrite pct_change_returns by discriminate.
  cbn [filter notna isnan negb].
  eapply Nat.le_trans; [apply filter_length_le |].
  rewrite length_returns_series. lia.
Qed.

Lemma var_few (s : Series) : length (filter notna s) <= 1 -> var s = NaN.
Proof.
  intro H. unfold var. apply Nat.leb_le in H. rewrite H. reflexivity.
Qed.

Lemma Fin_minus_own_mean (p : Qc) :
  (Fin p - fsum [Fin p] / of_nat 1)%float = Fin 0%Qc.
Proof.
  unfold fsum. cbn [fold_right]. rewrite zero_Fin. cbn [fadd].
  rewrite fdiv_Fin_nat by lia. cbn [fsub fneg fadd]. f_equal.
  rewrite nat_q_1. field. apply Q_apart_0_1.
Qed.

Lemma cov_single_pair (x y : float64) :
  (fsum [((x - fsum [x] / of_nat 1) * (y - fsum [y] / of_nat 1))%float]
   * (one / of_nat 0))%float = NaN.
Proof.
  assert (Hinf : (one / of_nat 0)%float = PInf) by reflexivity.
  rewrite Hinf.
  destruct x as [| | | p]; try reflexivity;
    destruct y as [| | | q]; try reflexivity.
  rewrite !Fin_minus_own_mean. reflexivity.
Qed.

Lemma cov_few (a b : Series) :
  length (filter (fun p => notna (fst p) && notna (snd p)) (combine a b)) <= 1 ->
  cov a b = NaN.
Proof.
  intro H. unfold cov.
  destruct (filter (fun p => notna (fst p) && notna (snd p)) (combine a b))
    as [| [x y] [| z rest]].
  - reflexivity.
  - cbn [length Nat.ltb Nat.leb map fst snd Nat.sub].
    apply cov_single_pair.
  - cbn [length] in H. lia.
Qed.

Section FewDays.

Variable sqrt_q : Qc -> Qc.

(** X12. An asset with fewer than three closes has too few returns for a
    variance: its volatility and its beta are both NaN. *)
Theorem under_three_days_no_risk_figures (t : PriceTable)
        (m : list MetricsRow) :
  compute_metrics sqrt_q t = ret m ->
  Forall2 (fun c r =>
             Ticker r = label c
             /\ (length (values c) < 3 ->
                 Volatility r = NaN /\ Beta r = NaN))
          (stock_columns t) m.
Proof.
  intro H. apply compute_metrics_inv in H.
  destruct H as [spy_data [_ [_ ->]]].
  apply Forall2_map_r, Forall_forall. intros c _.
  split; [reflexivity |]. intro Hlen.
  pose proof (valid_returns_le (values c)) as Hv.
  split.
  - cbn [Volatility row_of]. unfold volatility_of, std.
    rewrite var_few by lia. reflexivity.
  - cbn [Beta row_of]. unfold beta_of.
    rewrite cov_few; [reflexivity |].
    eapply Nat.le_trans; [apply valid_pairs_le |]. lia.
Qed.

End FewDays.

(* ================================================================== *)
(** ** Positive closes                                                  *)
(* ================================================================== *)

Lemma Qc_this_div (x y : Qc) : (this (x / y)%Qc == this x * / this y)%Q.
Proof. unfold Qcdiv. rewrite Qc_this_mult, Qc_this_inv. reflexivity. Qed.

Lemma nat_q_lt_0 (n : nat) : 0 < n -> (0 < nat_q n)%Qc.
Proof. intro H. apply Qcgt_alt. exact (nat_q_pos n H). Qed.

Lemma sum_q_nonneg (l : list Qc) :
  Forall (fun q => (0 < q)%Qc) l -> (0 <= sum_q l)%Qc.
Proof.
  induction 1 as [| q l Hq _ IH]; simpl; [apply Qcle_refl |].
  unfold Qcle, Qclt in *. rewrite Qc_this_plus.
  change (this 0%Qc) with 0%Q in *. lra.
Qed.

Lemma sum_q_pos (l : list Qc) :
  l <> [] -> Forall (fun q => (0 < q)%Qc) l -> (0 < sum_q l)%Qc.
Proof.
  intros Hne H. destruct H as [| q l Hq Hl]; [congruence |].
  pose proof (sum_q_nonneg l Hl) as Hs. simpl.
  unfold Qcle, Qclt in *. rewrite Qc_this_plus.
  change (this 0%Qc) with 0%Q in *. lra.
Qed.

Lemma mean_q_pos (l : list Qc) :
  l <> [] -> Forall (fun q => (0 < q)%Qc) l -> (0 < mean_q l)%Qc.
Proof.
  intros Hne H. pose proof (sum_q_pos l Hne H) as Hs.
  assert (Hn : (0 < nat_q (length l))%Qc)
    by (apply nat_q_lt_0; destruct l; [congruence | simpl; lia]).
  unfold mean_q, Qclt in *. rewrite Qc_this_div.
  change (this 0%Qc) with 0%Q in *.
  apply Qmult_lt_0_compat; [exact Hs |].
  apply Qinv_lt_0_compat. exact Hn.
Qed.

Lemma Forall_skipn_keep {A : Type} (P : A -> Prop) (n : nat) (l : list A) :
  Forall P l -> Forall P (skipn n l).
Proof.
  intro H. revert n. induction H as [| a l Ha Hl IH]; intro n.
  - rewrite skipn_nil. constructor.
  - destruct n as [| n]; [constructor; assumption | apply IH].
Qed.

Lemma Forall_last {A : Type} (P : A -> Prop) (l : list A) (d : A) :
  l <> [] -> Forall P l -> P (last l d).
Proof.
  intros Hne H. induction H as [| a l Ha Hl IH]; [congruence |].
  destruct l as [| b l']; [exact Ha |].
  change (P (last (b :: l') d)). apply IH. discriminate.
Qed.

(** The distance ((c - s) / s) * 100 of a positive close from a positive
    mean is a number above -100. *)
Lemma pct_above_minus_100 (c s : Qc) :
  (0 < c)%Qc -> (0 < s)%Qc ->
  (Q2Qc (inject_Z (-100)) < ((c + - s) / s) * Q2Qc (inject_Z 100))%Qc.
Proof.
  intros Hc Hs. unfold Qclt in *.
  rewrite Qc_this_mult, Qc_this_div, Qc_this_plus, Qc_this_opp, !Qc_this_Z.
  change (this 0%Qc) with 0%Q in *.
  assert (Hi : (0 < / this s)%Q) by (apply Qinv_lt_0_compat; exact Hs).
  assert (Hsi : (this s * / this s == 1)%Q).
  { apply Qmult_inv_r. intro E. rewrite E in Hs. exact (Qlt_irrefl _ Hs). }
  assert (Hci : (0 < this c * / this s)%Q)
    by (apply Qmult_lt_0_compat; assumption).
  set (a := this c) in *. set (b := this s) in *. set (i := (/ b)%Q) in *.
  change (inject_Z (-100)) with (-100)%Q. change (inject_Z 100) with 100%Q.
  assert (E : ((a + - b) * i * 100 == a * i * 100 - b * i * 100)%Q) by ring.
  rewrite E. rewrite Hsi. lra.
Qed.

Section PositiveCloses.

Variable sqrt_q : Qc -> Qc.

(** X10. For an asset with at least 50 closes, all positive, the trend
    distance is never below -100 (percent): it is not a number under -100
    and not -inf. *)
Theorem positive_closes_trend (t : PriceTable) (m : list MetricsRow) :
  compute_metrics sqrt_q t = ret m ->
  Forall2 (fun c r =>
             Ticker r = label c
             /\ forall prices,
                 values c = map Fin prices ->
                 50 <= length prices ->
                 Forall (fun q => (0 < q)%Qc) prices ->
                 flt (Distance_SMA r) (of_Z (-100)) = false
                 /\ Distance_SMA r <> NInf)
          (stock_columns t) m.
Proof.
  intro H. apply compute_metrics_inv in H.
  destruct H as [spy_data [_ [_ ->]]].
  apply Forall2_map_r, Forall_forall. intros c _.
  split; [reflexivity |]. intros prices Hp Hlen Hpos.
  assert (Hne : prices <> [])
    by (destruct prices; [simpl in Hlen; lia | discriminate]).
  assert (Hs : (0 < last_sma prices)%Qc).
  { unfold last_sma. apply mean_q_pos.
    - intro E. apply (f_equal (@length Qc)) in E.
      rewrite length_lastn in E by exact Hlen. discriminate E.
    - unfold lastn. apply Forall_skipn_keep. exact Hpos. }
  assert (Hc : (0 < last_close prices)%Qc)
    by (unfold last_close; apply Forall_last; assumption).
  pose proof (pct_above_minus_100 _ _ Hc Hs) as Hx.
  assert (Hd : Distance_SMA (row_of sqrt_q spy_data c)
               = Fin (((last_close prices + - last_sma prices)
                       / last_sma prices) * Q2Qc (inject_Z 100))%Qc).
  { cbn [Distance_SMA row_of]. rewrite Hp, (trend_of_prices prices Hlen).
    fold (last_close prices). fold (last_sma prices).
    unfold fsub, fneg, fadd, fdiv.
    apply Qcgt_alt in Hs. rewrite Hs. reflexivity. }
  rewrite Hd. split; [| discriminate].
  unfold of_Z.
  destruct (flt (Fin (((last_close prices + - last_sma prices)
                       / last_sma prices) * Q2Qc (inject_Z 100))%Qc)
                (Fin (Q2Qc (inject_Z (-100))))) eqn:E; [| reflexivity].
  apply flt_Fin in E. exfalso.
  exact (Qlt_irrefl _ (Qlt_trans _ _ _ E Hx)).
Qed.

End PositiveCloses.

(* ================================================================== *)
(** ** A flat asset                                                     *)
(* ================================================================== *)

Lemma fmul_comm (x y : float64) : (x * y)%float = (y * x)%float.
Proof.
  destruct x as [| | | a], y as [| | | b]; try reflexivity.
  cbn [fmul]. f_equal. ring.
Qed.

Lemma valid_pairs_swap (a b : Series) :
  filter (fun p => notna (fst p) && notna (snd p)) (combine b a)
  = map (fun p => (snd p, fst p))
        (filter (fun p => notna (fst p) && notna (snd p)) (combine a b)).
Proof.
  revert b. induction a as [| x a IH]; intro b.
  - destruct b; reflexivity.
  - destruct b as [| y b]; [reflexivity |].
    cbn [combine filter fst snd]. rewrite (andb_comm (notna y) (notna x)).
    destruct (notna x && notna y); cbn [map fst snd]; rewrite IH; reflexivity.
Qed.

(** The covariance does not depend on the order of its two series. *)
Lemma cov_sym (a b : Series) : cov b a = cov a b.
Proof.
  unfold cov. rewrite valid_pairs_swap.
  set (valid := filter (fun p => notna (fst p) && notna (snd p))
                       (combine a b)).
  rewrite length_map, !map_map. cbn [fst snd].
  destruct (length valid <? 1); [reflexivity |].
  f_equal. f_equal. apply map_ext. intro p. apply fmul_comm.
Qed.

Lemma sum_q_zero (l : list Qc) :
  Forall (fun q => q = 0%Qc) l -> sum_q l = 0%Qc.
Proof.
  induction 1 as [| q l Hq _ IH]; simpl; [reflexivity |].
  rewrite Hq, IH. ring.
Qed.

Lemma sum_q_repeat (p : Qc) (n : nat) :
  sum_q (repeat p n) = (nat_q n * p)%Qc.
Proof.
  induction n as [| n IH]; simpl.
  - rewrite nat_q_0. ring.
  - rewrite IH, nat_q_S. ring.
Qed.

Lemma mean_q_repeat (p : Qc) (n : nat) :
  0 < n -> mean_q (repeat p n) = p.
Proof.
  intro H. unfold mean_q. rewrite sum_q_repeat, repeat_length.
  field. apply nat_q_nonzero. exact H.
Qed.

Lemma lastn_repeat {A : Type} (p : A) (k n : nat) :
  k <= n -> lastn k (repeat p n) = repeat p k.
Proof.
  intro H. unfold lastn. rewrite repeat_length.
  replace n with ((n - k) + k) at 2 by lia.
  rewrite repeat_app, skipn_app, repeat_length.
  replace (n - k - (n - k)) with 0 by lia.
  rewrite skipn_all2 by (rewrite repeat_length; lia). reflexivity.
Qed.

Lemma last_repeat {A : Type} (p d : A) (n : nat) :
  0 < n -> last (repeat p n) d = p.
Proof.
  induction n as [| n IH]; [lia |]. intros _.
  destruct n as [| n']; [reflexivity |].
  change (last (repeat p (S (S n'))) d) with (last (repeat p (S n')) d).
  apply IH. lia.
Qed.

Lemma returns_q_repeat (p : Qc) (n : nat) :
  p <> 0%Qc -> returns_q (repeat p n) = repeat 0%Qc (n - 1).
Proof.
  intro Hp. induction n as [| n IH]; [reflexivity |].
  destruct n as [| n']; [reflexivity |].
  change (returns_q (repeat p (S (S n'))))
    with ((p / p - 1)%Qc :: returns_q (repeat p (S n'))).
  rewrite IH. cbn [Nat.sub repeat]. rewrite Nat.sub_0_r.
  f_equal. field. exact Hp.
Qed.

Lemma Forall_repeat {A : Type} (P : A -> Prop) (p : A) (n : nat) :
  P p -> Forall P (repeat p n).
Proof.
  intro H. induction n; simpl; constructor; assumption.
Qed.

(** The daily returns of a constant non-zero close: NaN, then zeros. *)
Lemma pct_change_flat (p : Qc) (n : nat) :
  p <> 0%Qc -> 0 < n ->
  pct_change (map Fin (repeat p n)) = NaN :: map Fin (repeat 0%Qc (n - 1)).
Proof.
  intros Hp Hn.
  rewrite pct_change_returns
    by (destruct n; [lia | discriminate]).
  rewrite returns_series_Fin by (apply Forall_repeat; exact Hp).
  rewrite returns_q_repeat by exact Hp. reflexivity.
Qed.

Lemma var_of_zeros (k : nat) :
  2 <= k -> var (NaN :: map Fin (repeat 0%Qc k)) = Fin 0%Qc.
Proof.
  intro Hk.
  rewrite (var_Fin _ (repeat 0%Qc k));
    [| cbn [filter notna isnan negb]; apply filter_notna_Fin
     | rewrite repeat_length; exact Hk].
  f_equal. rewrite mean_q_repeat by lia.
  rewrite sum_q_zero.
  - unfold Qcdiv. ring.
  - apply Forall_forall. intros x Hx. apply in_map_iff in Hx.
    destruct Hx as [q [<- Hq]]. apply repeat_spec in Hq. subst q. ring.
Qed.

Lemma fdiv_of_zero_or_nan (x y : float64) :
  x = NaN \/ x = Fin 0%Qc ->
  (x / y)%float = NaN \/ (x / y)%float = Fin 0%Qc.
Proof.
  intros [-> | ->]; [left; reflexivity |].
  destruct y as [| | | v]; cbn [fdiv].
  - left. reflexivity.
  - right. reflexivity.
  - right. reflexivity.
  - destruct (v ?= 0)%Qc.
    + rewrite Qccompare_refl. left. reflexivity.
    + right. f_equal. unfold Qcdiv. ring.
    + right. f_equal. unfold Qcdiv. ring.
Qed.

Section FlatAsset.

Variable sqrt_q : Qc -> Qc.

(** X11. An asset that closes at one and the same non-zero price on each
    of at least three days has zero returns throughout: its volatility is
    sqrt(0) * sqrt(252) * 100 (so 0 when the square root of 0 is 0), its
    beta is 0 or NaN and never another number, and with at least 50 days
    its trend distance is 0, which does not count as bullish. *)
Theorem flat_asset_metrics (t : PriceTable) (m : list MetricsRow) :
  compute_metrics sqrt_q t = ret m ->
  Forall2 (fun c r =>
             Ticker r = label c
             /\ forall p n,
                 values c = map Fin (repeat p n) ->
                 p <> 0%Qc -> 3 <= n ->
                 Volatility r
                 = Fin (sqrt_q 0 * sqrt_q (Q2Qc (inject_Z 252))
                        * Q2Qc (inject_Z 100))%Qc
                 /\ (sqrt_q 0%Qc = 0%Qc -> Volatility r = zero)
                 /\ (Beta r = NaN \/ Beta r = zero)
                 /\ (50 <= n -> Distance_SMA r = zero /\ bullish r = false))
          (stock_columns t) m.
Proof.
  intro H. apply compute_metrics_inv in H.
  destruct H as [spy_data [_ [_ ->]]].
  apply Forall2_map_r, Forall_forall. intros c _.
  split; [reflexivity |]. intros p n Hv Hp Hn.
  assert (Hvol : Volatility (row_of sqrt_q spy_data c)
                 = Fin (sqrt_q 0 * sqrt_q (Q2Qc (inject_Z 252))
                        * Q2Qc (inject_Z 100))%Qc).
  { cbn [Volatility row_of]. unfold volatility_of, std. rewrite Hv.
    rewrite pct_change_flat by (try exact Hp; lia).
    rewrite var_of_zeros by lia. reflexivity. }
  split; [exact Hvol |]. split; [| split].
  - intro E. rewrite Hvol, E, zero_Fin. apply f_equal. ring.
  - cbn [Beta row_of]. unfold beta_of. rewrite zero_Fin.
    apply fdiv_of_zero_or_nan. rewrite <- cov_sym.
    apply (cov_const_benchmark _ _ 0%Qc).
    rewrite Hv, pct_change_flat by (try exact Hp; lia).
    cbn [filter notna isnan negb]. rewrite filter_notna_Fin.
    apply Forall_forall. intros x Hx. apply in_map_iff in Hx.
    destruct Hx as [q [<- Hq]]. apply repeat_spec in Hq. subst q.
    reflexivity.
  - intro H50.
    assert (Hd : Distance_SMA (row_of sqrt_q spy_data c) = zero).
    { cbn [Distance_SMA row_of]. rewrite Hv.
      rewrite trend_of_prices by (rewrite repeat_length; exact H50).
      rewrite last_repeat by lia.
      rewrite lastn_repeat by exact H50.
      rewrite mean_q_repeat by lia.
      cbn [fsub fneg fadd]. rewrite fdiv_Fin_nonzero by exact Hp.
      rewrite zero_Fin. unfold of_Z. cbn [fmul]. f_equal. field. exact Hp. }
    split; [exact Hd |]. unfold bullish. rewrite Hd. reflexivity.
Qed.

End FlatAsset.

(* ================================================================== *)
(** ** Volatility is never negative                                     *)
(* ================================================================== *)

Lemma nonneg_cases (x : float64) :
  flt x zero = false <->
  x = NaN \/ x = PInf \/ exists q, x = Fin q /\ (0 <= q)%Qc.
Proof.
  rewrite zero_Fin. destruct x as [| | | q].
  - split; [left; reflexivity | reflexivity].
  - split; [right; left; reflexivity | reflexivity].
  - split; [discriminate |].
    intros [H | [H | [q [H _]]]]; discriminate H.
  - split.
    + intro H. right. right. exists q. split; [reflexivity |].
      apply Qcnot_lt_le. intro L. apply flt_Fin in L.
      rewrite L in H. discriminate H.
    + intros [H | [H | [q' [H L]]]]; try discriminate H.
      apply Fin_inj in H. subst q'.
      destruct (flt (Fin q) (Fin 0%Qc)) eqn:E; [| reflexivity].
      apply flt_Fin in E. exfalso. exact (Qcle_not_lt _ _ L E).
Qed.

Lemma Qc_mult_nonneg (a b : Qc) :
  (0 <= a)%Qc -> (0 <= b)%Qc -> (0 <= a * b)%Qc.
Proof.
  intros Ha Hb. unfold Qcle in *. rewrite Qc_this_mult.
  change (this 0%Qc) with 0%Q in *. apply Qmult_le_0_compat; assumption.
Qed.

Lemma Qc_plus_nonneg (a b : Qc) :
  (0 <= a)%Qc -> (0 <= b)%Qc -> (0 <= a + b)%Qc.
Proof.
  intros Ha Hb. unfold Qcle in *. rewrite Qc_this_plus.
  change (this 0%Qc) with 0%Q in *. lra.
Qed.

Lemma Qc_div_nat_nonneg (a : Qc) (n : nat) :
  (0 <= a)%Qc -> (0 <= a / nat_q n)%Qc.
Proof.
  intro Ha. destruct n as [| n].
  - rewrite nat_q_0. unfold Qcdiv. change (/ 0)%Qc with 0%Qc.
    rewrite Qcmult_0_r. apply Qcle_refl.
  - pose proof (nat_q_lt_0 (S n) (Nat.lt_0_succ n)) as Hn.
    unfold Qcle, Qclt in *. rewrite Qc_this_div.
    change (this 0%Qc) with 0%Q in *.
    apply Qmult_le_0_compat; [exact Ha |].
    apply Qinv_le_0_compat. apply Qlt_le_weak. exact Hn.
Qed.

Lemma nonneg_Fin (q : Qc) : (0 <= q)%Qc -> flt (Fin q) zero = false.
Proof.
  intro H. apply nonneg_cases. right. right. exists q.
  split; [reflexivity | exact H].
Qed.

Lemma nonneg_square (x : float64) : flt (x * x)%float zero = false.
Proof.
  destruct x as [| | | q]; try reflexivity.
  cbn [fmul]. apply nonneg_Fin, Qc_sq_nonneg.
Qed.

Lemma nonneg_fadd (x y : float64) :
  flt x zero = false -> flt y zero = false -> flt (x + y)%float zero = false.
Proof.
  intros Hx Hy. apply nonneg_cases in Hx. apply nonneg_cases in Hy.
  destruct Hx as [-> | [-> | [a [-> Ha]]]];
    destruct Hy as [-> | [-> | [b [-> Hb]]]]; try reflexivity.
  cbn [fadd]. apply nonneg_Fin, Qc_plus_nonneg; assumption.
Qed.

Lemma nonneg_fsum (l : Series) :
  Forall (fun x => flt x zero = false) l -> flt (fsum l) zero = false.
Proof.
  induction 1 as [| x l Hx _ IH]; [reflexivity |].
  unfold fsum in *. cbn [fold_right]. apply nonneg_fadd; assumption.
Qed.

Lemma nonneg_fdiv_nat (x : float64) (n : nat) :
  0 < n -> flt x zero = false -> flt (x / of_nat n)%float zero = false.
Proof.
  intros Hn Hx. apply nonneg_cases in Hx. rewrite of_nat_Fin.
  destruct Hx as [-> | [-> | [a [-> Ha]]]]; cbn [fdiv].
  - reflexivity.
  - rewrite (nat_q_pos n Hn). reflexivity.
  - rewrite (nat_q_pos n Hn). apply nonneg_Fin, Qc_div_nat_nonneg, Ha.
Qed.

Lemma nonneg_fmul (x y : float64) :
  flt x zero = false -> flt y zero = false -> flt (x * y)%float zero = false.
Proof.
  intros Hx Hy. apply nonneg_cases in Hx. apply nonneg_cases in Hy.
  destruct Hx as [-> | [-> | [a [-> Ha]]]];
    destruct Hy as [-> | [-> | [b [-> Hb]]]]; try reflexivity;
    cbn [fmul]; unfold inf_times.
  - destruct (b ?= 0)%Qc eqn:E; try reflexivity.
    exfalso. exact (Qcle_not_lt _ _ Hb (proj2 (Qclt_alt b 0%Qc) E)).
  - destruct (a ?= 0)%Qc eqn:E; try reflexivity.
    exfalso. exact (Qcle_not_lt _ _ Ha (proj2 (Qclt_alt a 0%Qc) E)).
  - apply nonneg_Fin, Qc_mult_nonneg; assumption.
Qed.

Lemma nonneg_var (s : Series) : flt (var s) zero = false.
Proof.
  unfold var. destruct (length (filter notna s) <=? 1) eqn:E; [reflexivity |].
  apply Nat.leb_gt in E. apply nonneg_fdiv_nat; [lia |].
  apply nonneg_fsum, Forall_forall. intros x Hx.
  apply in_map_iff in Hx. destruct Hx as [y [<- _]]. apply nonneg_square.
Qed.

Lemma sqrt_approx_nonneg (q : Qc) : (0 <= sqrt_approx q)%Qc.
Proof.
  unfold sqrt_approx, Qcle. rewrite Qc_this_div, !Qc_this_Z.
  change (this 0%Qc) with 0%Q.
  apply Qmult_le_0_compat.
  - change 0%Q with (inject_Z 0). rewrite <- Zle_Qle. apply Z.sqrt_nonneg.
  - apply Qinv_le_0_compat. discriminate.
Qed.

Section VolatilitySign.

Variable sqrt_q : Qc -> Qc.

Hypothesis sqrt_q_nonneg : forall q, (0 <= sqrt_q q)%Qc.

Lemma nonneg_fsqrt (x : float64) : flt (fsqrt sqrt_q x) zero = false.
Proof.
  destruct x as [| | | q]; try reflexivity.
  cbn [fsqrt]. destruct (q ?= 0)%Qc; try reflexivity;
    apply nonneg_Fin, sqrt_q_nonneg.
Qed.

(** X14. With a square root that is never negative, no volatility of the
    metrics table is negative: each is NaN, +inf or a number that is at
    least 0. *)
Theorem volatility_never_negative (t : PriceTable) (m : list MetricsRow) :
  compute_metrics sqrt_q t = ret m ->
  Forall (fun r =>
            flt (Volatility r) zero = false
            /\ (Volatility r = NaN \/ Volatility r = PInf
                \/ exists v, Volatility r = Fin v /\ (0 <= v)%Qc))
         m.
Proof.
  intro H. apply compute_metrics_inv in H.
  destruct H as [spy_data [_ [_ ->]]].
  apply Forall_forall. intros r Hr.
  apply in_map_iff in Hr. destruct Hr as [c [<- _]].
  assert (Hv : flt (Volatility (row_of sqrt_q spy_data c)) zero = false).
  { cbn [Volatility row_of]. unfold volatility_of, std, sqrt_252.
    apply nonneg_fmul; [apply nonneg_fmul; apply nonneg_fsqrt |].
    reflexivity. }
  split; [exact Hv | apply nonneg_cases; exact Hv].
Qed.

End VolatilitySign.

(* ================================================================== *)
(** ** The further properties on the example inputs                     *)
(* ================================================================== *)

Example no_days_raises_IndexError :
  compute_metrics sqrt_approx table_no_days = raise IndexError.
Proof. vm_compute. reflexivity. Qed.

(** Closes a goal [q <> 0] on a concrete number. *)
Ltac nonzero_eval :=
  let E := fresh "E" in
  intro E; apply Qceq_alt in E; vm_compute in E; discriminate E.

(** X2, on the 60-day table. *)
Lemma metrics_table_shape_witness :
  map Ticker (metrics_or_empty (compute_metrics sqrt_approx table_rising))
  = map label (stock_columns table_rising)
  /\ length (metrics_or_empty (compute_metrics sqrt_approx table_rising))
     = length (stock_columns table_rising)
  /\ Subseq (map Ticker
                 (metrics_or_empty (compute_metrics sqrt_approx table_rising)))
            (map fst (closes table_rising))
  /\ ~ In "SPY"%string
          (map Ticker
               (metrics_or_empty (compute_metrics sqrt_approx table_rising)))
  /\ (NoDup (map fst (closes table_rising)) ->
      NoDup (map Ticker
                 (metrics_or_empty
                    (compute_metrics sqrt_approx table_rising)))).
Proof.
  apply (metrics_table_shape sqrt_approx table_rising).
  vm_compute. reflexivity.
Defined.

(** X4, on the closes 100, 102, 101, 105. *)
Lemma daily_returns_of_prices_witness :
  pct_change (map Fin [Q2Qc (inject_Z 100); Q2Qc (inject_Z 102);
                       Q2Qc (inject_Z 101); Q2Qc (inject_Z 105)])
  = NaN :: map Fin (returns_q [Q2Qc (inject_Z 100); Q2Qc (inject_Z 102);
                               Q2Qc (inject_Z 101); Q2Qc (inject_Z 105)])
  /\ length (pct_change
               (map Fin [Q2Qc (inject_Z 100); Q2Qc (inject_Z 102);
                         Q2Qc (inject_Z 101); Q2Qc (inject_Z 105)]))
     = length [Q2Qc (inject_Z 100); Q2Qc (inject_Z 102);
               Q2Qc (inject_Z 101); Q2Qc (inject_Z 105)]
  /\ length (returns_q [Q2Qc (inject_Z 100); Q2Qc (inject_Z 102);
                        Q2Qc (inject_Z 101); Q2Qc (inject_Z 105)])
     = length [Q2Qc (inject_Z 100); Q2Qc (inject_Z 102);
               Q2Qc (inject_Z 101); Q2Qc (inject_Z 105)] - 1.
Proof.
  apply (daily_returns_of_prices
           [Q2Qc (inject_Z 100); Q2Qc (inject_Z 102);
            Q2Qc (inject_Z 101); Q2Qc (inject_Z 105)]).
  - discriminate.
  - repeat (constructor; [nonzero_eval |]). constructor.
Defined.

(** X5, on the closes 1, 2, 0, 4 with a window of 2, at the second day. *)
Lemma rolling_mean_by_day_witness :
  length (rolling_mean 2 (map Fin [Q2Qc (inject_Z 1); Q2Qc (inject_Z 2);
                                   Q2Qc (inject_Z 0); Q2Qc (inject_Z 4)]))
  = length [Q2Qc (inject_Z 1); Q2Qc (inject_Z 2);
            Q2Qc (inject_Z 0); Q2Qc (inject_Z 4)]
  /\ nth 1 (rolling_mean 2 (map Fin [Q2Qc (inject_Z 1); Q2Qc (inject_Z 2);
                                     Q2Qc (inject_Z 0); Q2Qc (inject_Z 4)]))
         NaN
     = (if 2 <? 2 then NaN
        else Fin (mean_q (skipn (2 - 2)
                                (firstn 2 [Q2Qc (inject_Z 1);
                                           Q2Qc (inject_Z 2);
                                           Q2Qc (inject_Z 0);
                                           Q2Qc (inject_Z 4)]))))
  /\ (2 <= 2 ->
      length (skipn (2 - 2)
                    (firstn 2 [Q2Qc (inject_Z 1); Q2Qc (inject_Z 2);
                               Q2Qc (inject_Z 0); Q2Qc (inject_Z 4)])) = 2).
Proof.
  apply (rolling_mean_by_day 2 [Q2Qc (inject_Z 1); Q2Qc (inject_Z 2);
                                Q2Qc (inject_Z 0); Q2Qc (inject_Z 4)] 1).
  - lia.
  - simpl. lia.
Defined.

(** X6, on the 60-day table. *)
Lemma breadth_partition_witness :
  bullish_count (dashboard_or_empty (dashboard sqrt_approx table_rising))
  + bearish_count (dashboard_or_empty (dashboard sqrt_approx table_rising))
  = length (stock_columns table_rising)
  /\ bullish_count (dashboard_or_empty (dashboard sqrt_approx table_rising))
     = length (filter (fun r => fgt (Distance_SMA r) zero)
                      (metrics (dashboard_or_empty
                                  (dashboard sqrt_approx table_rising))))
  /\ bearish_count (dashboard_or_empty (dashboard sqrt_approx table_rising))
     = length (filter (fun r => negb (fgt (Distance_SMA r) zero))
                      (metrics (dashboard_or_empty
                                  (dashboard sqrt_approx table_rising)))).
Proof.
  apply (breadth_partition sqrt_approx table_rising).
  vm_compute. reflexivity.
Defined.

(** X7, on the 30-day table. *)
Lemma short_table_is_all_bearish_witness :
  bullish_count (dashboard_or_empty (dashboard sqrt_approx table_short)) = 0
  /\ bearish_count (dashboard_or_empty (dashboard sqrt_approx table_short))
     = length (stock_columns table_short)
  /\ printed (dashboard_or_empty (dashboard sqrt_approx table_short)) = [].
Proof.
  apply (short_table_is_all_bearish sqrt_approx table_short).
  - constructor; [vm_compute; lia |].
    constructor; [vm_compute; lia | constructor].
  - vm_compute. reflexivity.
Defined.

(** X8, on the 60-day table, which prints one candidate. *)
Lemma printed_are_bullish_witness :
  length (printed (dashboard_or_empty (dashboard sqrt_approx table_rising)))
  = 1
  /\ Forall (fun r =>
               In r (metrics (dashboard_or_empty
                                (dashboard sqrt_approx table_rising)))
               /\ bullish r = true)
            (printed (dashboard_or_empty (dashboard sqrt_approx table_rising)))
  /\ length (printed (dashboard_or_empty
                        (dashboard sqrt_approx table_rising)))
     <= bullish_count (dashboard_or_empty
                         (dashboard sqrt_approx table_rising))
  /\ length (printed (dashboard_or_empty
                        (dashboard sqrt_approx table_rising))) <= 5.
Proof.
  split; [vm_compute; reflexivity |].
  apply (printed_are_bullish sqrt_approx table_rising).
  vm_compute. reflexivity.
Defined.

(** X10, on the 60-day table, whose one stock column has 60 positive
    closes. *)
Lemma positive_closes_trend_witness :
  (stock_columns table_rising
   = [("A"%string, map Fin (repeat (Q2Qc (inject_Z 100)) 59
                            ++ [Q2Qc (inject_Z 110)]))]
   /\ forallb (fun q => match (0 ?= q)%Qc with Lt => true | _ => false end)
              (repeat (Q2Qc (inject_Z 100)) 59 ++ [Q2Qc (inject_Z 110)])
      = true)
  /\ Forall2 (fun c r =>
                Ticker r = label c
                /\ forall prices,
                    values c = map Fin prices ->
                    50 <= length prices ->
                    Forall (fun q => (0 < q)%Qc) prices ->
                    flt (Distance_SMA r) (of_Z (-100)) = false
                    /\ Distance_SMA r <> NInf)
             (stock_columns table_rising)
             (metrics_or_empty (compute_metrics sqrt_approx table_rising)).
Proof.
  split.
  - split; vm_compute; reflexivity.
  - apply (positive_closes_trend sqrt_approx table_rising).
    vm_compute. reflexivity.
Defined.

(** X11, on the 60-day table whose one stock column is flat at 100; the
    example square root of 0 is 0. *)
Lemma flat_asset_metrics_witness :
  (stock_columns table_flat_asset
   = [("A"%string, map Fin (repeat (Q2Qc (inject_Z 100)) 60))]
   /\ this (sqrt_approx 0%Qc) = 0%Q)
  /\ Forall2 (fun c r =>
                Ticker r = label c
                /\ forall p n,
                    values c = map Fin (repeat p n) ->
                    p <> 0%Qc -> 3 <= n ->
                    Volatility r
                    = Fin (sqrt_approx 0 * sqrt_approx (Q2Qc (inject_Z 252))
                           * Q2Qc (inject_Z 100))%Qc
                    /\ (sqrt_approx 0%Qc = 0%Qc -> Volatility r = zero)
                    /\ (Beta r = NaN \/ Beta r = zero)
                    /\ (50 <= n ->
                        Distance_SMA r = zero /\ bullish r = false))
             (stock_columns table_flat_asset)
             (metrics_or_empty (compute_metrics sqrt_approx table_flat_asset)).
Proof.
  split.
  - split; vm_compute; reflexivity.
  - apply (flat_asset_metrics sqrt_approx table_flat_asset).
    vm_compute. reflexivity.
Defined.

(** X12, on the 2-day table. *)
Lemma under_three_days_no_risk_figures_witness :
  Forall (fun c => length (values c) < 3) (stock_columns table_two_days)
  /\ Forall2 (fun c r =>
                Ticker r = label c
                /\ (length (values c) < 3 ->
                    Volatility r = NaN /\ Beta r = NaN))
             (stock_columns table_two_days)
             (metrics_or_empty (compute_metrics sqrt_approx table_two_days)).
Proof.
  split.
  - vm_compute. repeat constructor.
  - apply (under_three_days_no_risk_figures sqrt_approx table_two_days).
    vm_compute. reflexivity.
Defined.

(** X14, with the example square root on the 60-day table. *)
Lemma volatility_never_negative_witness :
  Forall (fun r =>
            flt (Volatility r) zero = false
            /\ (Volatility r = NaN \/ Volatility r = PInf
                \/ exists v, Volatility r = Fin v /\ (0 <= v)%Qc))
         (metrics_or_empty (compute_metrics sqrt_approx table_rising)).
Proof.
  apply (volatility_never_negative sqrt_approx sqrt_approx_nonneg
                                   table_rising).
  vm_compute. reflexivity.
Defined.

(** X15, on the 60-day table. *)
Lemma marker_colors_match_breadth_witness :
  Forall2 (fun r c => (c = green <-> bullish r = true)
                      /\ (c = red <-> bullish r = false))
          (metrics (dashboard_or_empty (dashboard sqrt_approx table_rising)))
          (marker_colors
             (metrics (dashboard_or_empty
                         (dashboard sqrt_approx table_rising))))
  /\ length (filter (String.eqb green)
                    (marker_colors
                       (metrics (dashboard_or_empty
                                   (dashboard sqrt_approx table_rising)))))
     = bullish_count (dashboard_or_empty (dashboard sqrt_approx table_rising))
  /\ length (filter (String.eqb red)
                    (marker_colors
                       (metrics (dashboard_or_empty
                                   (dashboard sqrt_approx table_rising)))))
     = bearish_count (dashboard_or_empty (dashboard sqrt_approx table_rising)).
Proof.
  apply (marker_colors_match_breadth sqrt_approx table_rising).
  vm_compute. reflexivity.
Defined.

(** X16, on the 60-day table. *)
Lemma labelled_outliers_witness :
  Subseq (labelled (dashboard_or_empty (dashboard sqrt_approx table_rising)))
         (map label (stock_columns table_rising))
  /\ ~ In "SPY"%string
          (labelled (dashboard_or_empty (dashboard sqrt_approx table_rising)))
  /\ (forall tk,
         In tk (labelled (dashboard_or_empty
                            (dashboard sqrt_approx table_rising))) <->
         exists r,
           In r (metrics (dashboard_or_empty
                            (dashboard sqrt_approx table_rising)))
           /\ Ticker r = tk
           /\ (fgt (Distance_SMA r) (of_Z 15) = true
               \/ flt (Distance_SMA r) (of_Z (-15)) = true
               \/ fgt (Beta r) (Fin (Q2Qc (3 # 2))) = true)).
Proof.
  apply (labelled_outliers sqrt_approx table_rising).
  vm_compute. reflexivity.
Defined.

(** X9, on the sample table: six rows pass the tests, five are returned,
    and D, the one left out, has the smallest trend distance of the six. *)
Lemma screener_keeps_the_top_witness :
  length (screener_with (of_Z 5) (of_Z 25) sample_metrics) = 5
  /\ Forall (fun x => fle (Distance_SMA (sample_row "D" 6 5))
                          (Distance_SMA x) = true)
            (screener_with (of_Z 5) (of_Z 25) sample_metrics).
Proof.
  destruct (screener_keeps_the_top (of_Z 5) (of_Z 25) sample_metrics)
    as [Hlen Htop].
  split.
  - rewrite Hlen. vm_compute. reflexivity.
  - apply Htop.
    + vm_compute. do 3 right. left. reflexivity.
    + vm_compute. intro H.
      repeat (destruct H as [H | H]; [discriminate H |]). exact H.
Defined.

(* ================================================================== *)
(** ** A constant benchmark, short histories and the sign of the trend  *)
(* ================================================================== *)

Lemma NoDup_map_inj {A B : Type} (f : A -> B) (l : list A) (x y : A) :
  NoDup (map f l) -> In x l -> In y l -> f x = f y -> x = y.
Proof.
  induction l as [| a l IH]; simpl; intros Hn Hx Hy E; [contradiction |].
  inversion Hn as [| ? ? Hna Hnl]; subst.
  destruct Hx as [-> | Hx]; destruct Hy as [-> | Hy].
  - reflexivity.
  - exfalso. apply Hna. rewrite E. apply in_map. exact Hy.
  - exfalso. apply Hna. rewrite <- E. apply in_map. exact Hx.
  - exact (IH Hnl Hx Hy E).
Qed.

Lemma to_float_NaN_iff (raw : list (option Qc)) :
  In NaN (map to_float raw) <-> In None raw.
Proof.
  rewrite in_map_iff. split.
  - intros [[q |] [E H]]; [discriminate E | exact H].
  - intro H. exists None. split; [reflexivity | exact H].
Qed.

Lemma observations_all (raw : list (option Qc)) :
  ~ In None raw -> observations raw = length raw.
Proof.
  unfold observations. induction raw as [| [q |] raw IH]; intro H.
  - reflexivity.
  - cbn [filter length]. rewrite IH; [reflexivity |].
    intro Hin. apply H. right. exact Hin.
  - exfalso. apply H. left. reflexivity.
Qed.

(** The stock columns of a run are the downloaded columns, other than the
    benchmark, that have a close on every day. *)
Lemma stock_column_iff (t : PriceTable) (c : Column) :
  In c (stock_columns t) <->
  exists a, In a (closes t)
            /\ c = (fst a, map to_float (snd a))
            /\ ~ In None (snd a)
            /\ fst a <> "SPY"%string.
Proof.
  unfold stock_columns, cleaned, dropna, close_frame. cbn [columns].
  rewrite !filter_In, in_map_iff. split.
  - intros [[[a [<- Ha]] Hc] Hl]. exists a.
    apply complete_iff in Hc. cbn [values snd] in Hc.
    rewrite to_float_NaN_iff in Hc.
    unfold has_label in Hl. cbn [label fst] in Hl.
    repeat split; try assumption.
    intro E. rewrite E in Hl. discriminate Hl.
  - intros [a [Ha [-> [Hn Hs]]]]. repeat split.
    + exists a. split; [reflexivity | exact Ha].
    + apply complete_iff. cbn [values snd]. rewrite to_float_NaN_iff. exact Hn.
    + unfold has_label. cbn [label fst].
      destruct (String.eqb_spec (fst a) "SPY"); [contradiction | reflexivity].
Qed.

Lemma rolling_last_short (w : nat) (s : Series) :
  length s < w -> last (rolling_mean w s) NaN = NaN.
Proof.
  intro H. destruct s as [| x s']; [reflexivity |].
  rewrite rolling_mean_last by discriminate.
  apply window_mean_short. unfold lastn. rewrite length_skipn. lia.
Qed.

(** The sign of line 46's distance for a positive mean. *)
Lemma distance_pct_sign (p s : Qc) :
  (0 < s)%Qc ->
  (fgt (distance_pct (Fin p) (Fin s)) zero = true <-> (s < p)%Qc)
  /\ (flt (distance_pct (Fin p) (Fin s)) zero = true <-> (p < s)%Qc)
  /\ (p = s -> distance_pct (Fin p) (Fin s) = zero
               /\ fgt (distance_pct (Fin p) (Fin s)) zero = false).
Proof.
  intro Hs. destruct (pct_sign p s Hs) as [Hgt [Hlt Heq]].
  set (x := (((p + - s) / s) * Q2Qc (inject_Z 100))%Qc) in *.
  assert (Hd : distance_pct (Fin p) (Fin s) = Fin x).
  { unfold distance_pct, fsub, fneg, fadd, fdiv.
    pose proof Hs as Hc. apply Qcgt_alt in Hc. rewrite Hc. reflexivity. }
  rewrite Hd, zero_Fin. unfold fgt. rewrite !flt_Fin.
  split; [exact Hgt |]. split; [exact Hlt |].
  intro E. rewrite (Heq E). split; [reflexivity |].
  destruct (flt (Fin 0%Qc) (Fin 0%Qc)) eqn:F; [| reflexivity].
  apply flt_Fin in F. exfalso. exact (Qlt_irrefl _ F).
Qed.

Section Restated.

Variable sqrt_q : Qc -> Qc.

(** C1, as the script has it.  With a constant benchmark (one and the same
    non-zero close on each of at least three days) the variance of the
    benchmark's returns is exactly zero, and in a run that builds the
    metrics table the beta of every asset is the result of the division of
    its covariance by that zero, which is NaN, stored in the table like any
    other value. *)
Theorem constant_benchmark_beta_is_nan (t : PriceTable) (m : list MetricsRow)
        (p : Qc) (n : nat) :
  compute_metrics sqrt_q t = ret m ->
  benchmark t = ret (map Fin (repeat p n)) ->
  p <> 0%Qc ->
  3 <= n ->
  var (pct_change (map Fin (repeat p n))) = zero
  /\ Forall2 (fun c r =>
                Ticker r = label c
                /\ Beta r = (cov (pct_change (values c))
                                 (pct_change (map Fin (repeat p n)))
                             / zero)%float
                /\ Beta r = NaN)
             (stock_columns t) m.
Proof.
  intros Hm Hb Hp Hn.
  apply compute_metrics_inv in Hm. destruct Hm as [spy_data [Hb' [_ ->]]].
  assert (Es : spy_data = map Fin (repeat p n))
    by (unfold ret in *; congruence).
  subst spy_data.
  assert (Hr : pct_change (map Fin (repeat p n))
               = NaN :: map Fin (repeat 0%Qc (n - 1)))
    by (apply pct_change_flat; [exact Hp | lia]).
  assert (Hv : var (pct_change (map Fin (repeat p n))) = zero).
  { rewrite Hr, zero_Fin. apply var_of_zeros. lia. }
  split; [exact Hv |].
  apply Forall2_map_r, Forall_forall. intros c _.
  split; [reflexivity |].
  cbn [Beta row_of]. unfold beta_of. rewrite Hv.
  split; [reflexivity |].
  rewrite zero_Fin. apply fdiv_by_zero_of_zero_or_nan.
  apply (cov_const_benchmark _ _ 0%Qc).
  rewrite Hr. cbn [filter notna isnan negb]. rewrite filter_notna_Fin.
  apply Forall_forall. intros x Hx. apply in_map_iff in Hx.
  destruct Hx as [q [<- Hq]]. apply repeat_spec in Hq. subst q. reflexivity.
Qed.

(** C2, as the script has it.  Take a download with distinct symbols and an
    asset in it with fewer than 50 closes.  If the asset misses a close on
    some trading day, the cleaner drops it and no row of the metrics table
    bears its symbol.  If it has a close on every day (the download then
    has fewer than 50 days), it keeps a row in the metrics table, with NaN
    as its trend distance and no flag.  Either way no row of the screener's
    output bears its symbol. *)
Theorem short_history_dropped_or_nan (t : PriceTable) (m : list MetricsRow) :
  NoDup (map fst (closes t)) ->
  compute_metrics sqrt_q t = ret m ->
  Forall (fun a =>
            fst a <> "SPY"%string ->
            observations (snd a) < 50 ->
            (In None (snd a) -> ~ In (fst a) (map Ticker m))
            /\ (~ In None (snd a) ->
                exists r, In r m /\ Ticker r = fst a
                          /\ Distance_SMA r = NaN)
            /\ ~ In (fst a) (map Ticker (screener m)))
         (closes t).
Proof.
  intros Hnd Hm. apply compute_metrics_inv in Hm.
  destruct Hm as [spy_data [_ [_ ->]]].
  apply Forall_forall. intros a Ha Hspy Hobs.
  assert (K : forall r,
             In r (map (row_of sqrt_q spy_data) (stock_columns t)) ->
             Ticker r = fst a ->
             ~ In None (snd a) /\ Distance_SMA r = NaN).
  { intros r Hr Ht. apply in_map_iff in Hr. destruct Hr as [c [<- Hc]].
    apply stock_column_iff in Hc.
    destruct Hc as [a' [Ha' [-> [Hn' _]]]]. cbn [Ticker row_of label fst] in Ht.
    assert (Ea : a' = a) by (apply (NoDup_map_inj fst (closes t)); assumption).
    subst a'. split; [exact Hn' |].
    cbn [Distance_SMA row_of values snd]. apply trend_of_short.
    rewrite length_map, <- (observations_all _ Hn'). exact Hobs. }
  split; [| split].
  - intros Hnone Hin. apply in_map_iff in Hin. destruct Hin as [r [Ht Hr]].
    destruct (K r Hr Ht) as [Hn _]. exact (Hn Hnone).
  - intro Hn.
    assert (Hc : In (fst a, map to_float (snd a)) (stock_columns t)).
    { apply stock_column_iff. exists a. repeat split; assumption. }
    exists (row_of sqrt_q spy_data (fst a, map to_float (snd a))).
    split; [apply in_map; exact Hc |]. split; [reflexivity |].
    cbn [Distance_SMA row_of values snd]. apply trend_of_short.
    rewrite length_map, <- (observations_all _ Hn). exact Hobs.
  - intro Hin. apply in_map_iff in Hin. destruct Hin as [r [Ht Hr]].
    unfold screener in Hr. apply screener_with_In in Hr.
    destruct Hr as [Hr Hc]. apply candidate_keyed in Hc.
    destruct (K r Hr Ht) as [_ Hd]. exact (Hc Hd).
Qed.

(** C9, as the script has it.  The trend distance of a row is line 46's
    ((last_close - last_sma) / last_sma) * 100 on the last close and on
    last_sma, the last value of the 50-day rolling mean (NaN with fewer than
    50 observations).  Whatever numbers these two are, as long as last_sma
    is positive, the distance is above 0 exactly when last_close is above
    last_sma, below 0 exactly when it is below, and 0 when they are equal;
    a row counts as bullish exactly when its distance is above 0, so not
    when they are equal. *)
Theorem trend_sign_of_computed_mean :
  (forall p s : Qc,
      (0 < s)%Qc ->
      (fgt (distance_pct (Fin p) (Fin s)) zero = true <-> (s < p)%Qc)
      /\ (flt (distance_pct (Fin p) (Fin s)) zero = true <-> (p < s)%Qc)
      /\ (p = s -> distance_pct (Fin p) (Fin s) = zero
                   /\ fgt (distance_pct (Fin p) (Fin s)) zero = false))
  /\ (forall t m,
         compute_metrics sqrt_q t = ret m ->
         Forall2 (fun c r =>
                    Ticker r = label c
                    /\ Distance_SMA r
                       = distance_pct (last (values c) NaN)
                                      (last (rolling_mean 50 (values c)) NaN)
                    /\ bullish r = fgt (Distance_SMA r) zero
                    /\ (length (values c) < 50 ->
                        last (rolling_mean 50 (values c)) NaN = NaN))
                 (stock_columns t) m).
Proof.
  split; [exact distance_pct_sign |].
  intros t m H. apply compute_metrics_inv in H.
  destruct H as [spy_data [_ [_ ->]]].
  apply Forall2_map_r, Forall_forall. intros c _.
  split; [reflexivity |]. split; [reflexivity |]. split; [reflexivity |].
  apply rolling_last_short.
Qed.

End Restated.

(** C1, on the 60-day table whose benchmark is flat at 50. *)
Lemma constant_benchmark_beta_is_nan_witness :
  var (pct_change (map Fin (repeat (Q2Qc (inject_Z 50)) 60))) = zero
  /\ Forall2 (fun c r =>
                Ticker r = label c
                /\ Beta r
                   = (cov (pct_change (values c))
                          (pct_change
                             (map Fin (repeat (Q2Qc (inject_Z 50)) 60)))
                      / zero)%float
                /\ Beta r = NaN)
             (stock_columns table_flat_benchmark)
             (metrics_or_empty
                (compute_metrics sqrt_approx table_flat_benchmark)).
Proof.
  apply (constant_benchmark_beta_is_nan sqrt_approx table_flat_benchmark).
  - vm_compute. reflexivity.
  - vm_compute. reflexivity.
  - nonzero_eval.
  - lia.
Defined.

(** C2, on the 60-day table in which B has 30 closes and is dropped, and on
    the 30-day table in which A keeps its row. *)
Lemma short_history_dropped_or_nan_witness :
  (map (fun a => (fst a, observations (snd a))) (closes table_partial)
   = [("A", 60); ("B", 30); ("SPY", 60)]%string
   /\ map Ticker (metrics_or_empty
                    (compute_metrics sqrt_approx table_partial))
      = ["A"%string])
  /\ Forall (fun a =>
               fst a <> "SPY"%string ->
               observations (snd a) < 50 ->
               (In None (snd a) ->
                ~ In (fst a)
                     (map Ticker
                          (metrics_or_empty
                             (compute_metrics sqrt_approx table_partial))))
               /\ (~ In None (snd a) ->
                   exists r,
                     In r (metrics_or_empty
                             (compute_metrics sqrt_approx table_partial))
                     /\ Ticker r = fst a /\ Distance_SMA r = NaN)
               /\ ~ In (fst a)
                       (map Ticker
                            (screener
                               (metrics_or_empty
                                  (compute_metrics sqrt_approx
                                                   table_partial)))))
            (closes table_partial)
  /\ Forall (fun a =>
               fst a <> "SPY"%string ->
               observations (snd a) < 50 ->
               (In None (snd a) ->
                ~ In (fst a)
                     (map Ticker
                          (metrics_or_empty
                             (compute_metrics sqrt_approx table_short))))
               /\ (~ In None (snd a) ->
                   exists r,
                     In r (metrics_or_empty
                             (compute_metrics sqrt_approx table_short))
                     /\ Ticker r = fst a /\ Distance_SMA r = NaN)
               /\ ~ In (fst a)
                       (map Ticker
                            (screener
                               (metrics_or_empty
                                  (compute_metrics sqrt_approx
                                                   table_short)))))
            (closes table_short).
Proof.
  split; [split; vm_compute; reflexivity |].
  split.
  - apply (short_history_dropped_or_nan sqrt_approx table_partial).
    + vm_compute. repeat constructor; simpl; intuition discriminate.
    + vm_compute. reflexivity.
  - apply (short_history_dropped_or_nan sqrt_approx table_short).
    + vm_compute. repeat constructor; simpl; intuition discriminate.
    + vm_compute. reflexivity.
Defined.

(** C6, on the sample table: of its eight rows six pass the two tests, and
    the five with the largest trend distance are returned, in decreasing
    order. *)
Lemma screener_contract_witness :
  (map Ticker (screener sample_metrics) = ["F"; "B"; "C"; "E"; "A"]%string
   /\ map Ticker (filter (fun r => fgt (Distance_SMA r) (of_Z 5)
                                   && flt (Volatility r) (of_Z 25))
                         sample_metrics)
      = ["A"; "B"; "C"; "D"; "E"; "F"]%string)
  /\ (exists arranged,
         Permutation arranged
                     (filter (fun r => fgt (Distance_SMA r) (of_Z 5)
                                       && flt (Volatility r) (of_Z 25))
                             sample_metrics)
         /\ (forall r,
                In r arranged <->
                In r sample_metrics
                /\ fgt (Distance_SMA r) (of_Z 5) = true
                /\ flt (Volatility r) (of_Z 25) = true)
         /\ StronglySorted desc arranged
         /\ screener_with (of_Z 5) (of_Z 25) sample_metrics
            = firstn 5 arranged)
  /\ StronglySorted desc (screener_with (of_Z 5) (of_Z 25) sample_metrics)
  /\ length (screener_with (of_Z 5) (of_Z 25) sample_metrics)
     = Nat.min 5 (length (filter (fun r => fgt (Distance_SMA r) (of_Z 5)
                                           && flt (Volatility r) (of_Z 25))
                                 sample_metrics))
  /\ length (screener_with (of_Z 5) (of_Z 25) sample_metrics) <= 5
  /\ Forall (fun r => In r sample_metrics
                      /\ fgt (Distance_SMA r) (of_Z 5) = true
                      /\ flt (Volatility r) (of_Z 25) = true)
            (screener_with (of_Z 5) (of_Z 25) sample_metrics)
  /\ screener sample_metrics
     = screener_with (of_Z 5) (of_Z 25) sample_metrics.
Proof.
  split; [split; vm_compute; reflexivity |].
  exact (screener_contract (of_Z 5) (of_Z 25) sample_metrics).
Defined.

(** C9, on a last close of 110 against a mean of 501 / 5, and on the 60-day
    table. *)
Lemma trend_sign_of_computed_mean_witness :
  ((fgt (distance_pct (Fin (Q2Qc (inject_Z 110))) (Fin (Q2Qc (501 # 5))))
        zero = true <->
    (Q2Qc (501 # 5) < Q2Qc (inject_Z 110))%Qc)
   /\ (flt (distance_pct (Fin (Q2Qc (inject_Z 110))) (Fin (Q2Qc (501 # 5))))
           zero = true <->
       (Q2Qc (inject_Z 110) < Q2Qc (501 # 5))%Qc)
   /\ (Q2Qc (inject_Z 110) = Q2Qc (501 # 5) ->
       distance_pct (Fin (Q2Qc (inject_Z 110))) (Fin (Q2Qc (501 # 5))) = zero
       /\ fgt (distance_pct (Fin (Q2Qc (inject_Z 110)))
                            (Fin (Q2Qc (501 # 5)))) zero = false))
  /\ Forall2 (fun c r =>
                Ticker r = label c
                /\ Distance_SMA r
                   = distance_pct (last (values c) NaN)
                                  (last (rolling_mean 50 (values c)) NaN)
                /\ bullish r = fgt (Distance_SMA r) zero
                /\ (length (values c) < 50 ->
                    last (rolling_mean 50 (values c)) NaN = NaN))
             (stock_columns table_rising)
             (metrics_or_empty (compute_metrics sqrt_approx table_rising)).
Proof.
  destruct (trend_sign_of_computed_mean sqrt_approx) as [Hsign Hrows].
  split.
  - apply Hsign. vm_compute. reflexivity.
  - apply Hrows. vm_compute. reflexivity.
Defined.
